(** * Whisper front end: store, engine boundary, settings panel, hotkeys

    A shallow embedding of the TypeScript sources of the Whisper desktop
    front end, and the properties of its specification proved (or refuted)
    on it.

    Conventions of the embedding.
    - A JS string is a Rocq [string]; one [ascii] stands for one code unit,
      so [String.length] is JS [.length] on the key names and tokens the
      code measures.  The Mac glyphs returned by [formatKeyLabel] are
      written as their UTF-8 text; their length is never taken.
    - [T | null] is [option T].
    - A promise that has settled is a [Promise T]: resolved with a value or
      rejected with an error message.  [await] inside [try]/[catch] is a
      [match] on it.
    - React state and the zustand store are passed explicitly: a setter is a
      function from the old state to the new one.
    - A plain JS object used as a dictionary is a [gmap] with string keys. *)

From Stdlib Require Import String Ascii List NArith Bool Lia.
From stdpp Require Import base option strings list gmap pretty.

Import ListNotations.
Open Scope string_scope.

(** ** JavaScript runtime pieces the sources rely on *)

Module Js.

(** A settled promise. *)
Inductive Promise (T : Type) : Type :=
| Resolved (v : T)
| Rejected (e : string).
Arguments Resolved {T} v.
Arguments Rejected {T} e.

(** [p.catch(h)]. *)
Definition catch {T : Type} (p : Promise T) (h : string -> T) : Promise T :=
  match p with
  | Resolved v => Resolved v
  | Rejected e => Resolved (h e)
  end.

(** [p.then(f)] for a synchronous [f]. *)
Definition then_ {T U : Type} (p : Promise T) (f : T -> U) : Promise U :=
  match p with
  | Resolved v => Resolved (f v)
  | Rejected e => Rejected e
  end.

Definition raises {T : Type} (p : Promise T) : bool :=
  match p with
  | Resolved _ => false
  | Rejected _ => true
  end.

(** [s.split(sep)] for a one-character separator: the empty string splits
    into one empty piece, and every separator starts a new piece. *)
Fixpoint split (sep : ascii) (s : string) : list string :=
  match s with
  | EmptyString => [EmptyString]
  | String c rest =>
      if Ascii.eqb c sep then EmptyString :: split sep rest
      else match split sep rest with
           | piece :: pieces => String c piece :: pieces
           | [] => [String c EmptyString]
           end
  end.

(** [parts.join(sep)]. *)
Fixpoint join (sep : string) (parts : list string) : string :=
  match parts with
  | [] => ""
  | [p] => p
  | p :: rest => p ++ sep ++ join sep rest
  end.

(** [String.prototype.toUpperCase] restricted to ASCII text: the letters
    a-z go to A-Z, every other character is kept. *)
Definition asciiUpper (c : ascii) : ascii :=
  let n := nat_of_ascii c in
  if (97 <=? n)%nat && (n <=? 122)%nat then ascii_of_nat (n - 32) else c.

Fixpoint asciiToUpperCase (s : string) : string :=
  match s with
  | EmptyString => EmptyString
  | String c rest => String (asciiUpper c) (asciiToUpperCase rest)
  end.

(** Decimal text of a non-negative integer, as template literals and
    [toFixed] print it. *)
Definition decimal (n : N) : string := pretty n.

Fixpoint zeros (k : nat) : string :=
  match k with
  | O => ""
  | S k' => String "0" (zeros k')
  end.

(** [x.toFixed(f)] for the exact non-negative rational [x = num / den]
    (ECMAScript: take the integer [n] with [n / 10^f] closest to [x], the
    larger one on a tie; print [n] with at least [f + 1] digits and put
    the point before the last [f]).  The quotients formed by
    [formatBytes] divide an integer below 2^53 by a power of two, which a
    double holds exactly. *)
Definition toFixed (f : nat) (num den : N) : string :=
  let scale := (10 ^ N.of_nat f)%N in
  let n := ((2 * num * scale + den) / (2 * den))%N in
  let digits := decimal n in
  let padded := zeros (S f - String.length digits) ++ digits in
  let k := (String.length padded - f)%nat in
  if (f =? 0)%nat then padded
  else substring 0 k padded ++ "." ++ substring k f padded.

End Js.

Export Js(Promise, Resolved, Rejected).

(** ** types.ts *)

Module Types.

Inductive ProviderId : Set :=
| OpenAiWhisper | GoogleCloud | LocalWhisper | NativeStt | ConstmeWhisper.

(** The string a [ProviderId] is at run time; it is the key used in
    [provider_configs]. *)
Definition providerKey (p : ProviderId) : string :=
  match p with
  | OpenAiWhisper => "OpenAiWhisper"
  | GoogleCloud => "GoogleCloud"
  | LocalWhisper => "LocalWhisper"
  | NativeStt => "NativeStt"
  | ConstmeWhisper => "ConstmeWhisper"
  end.

(** A [ProviderConfig] object: property name to [string | null].  A
    property that was never written is absent from the map. *)
Abbreviation ProviderConfig := (gmap string (option string)).

Inductive InteractionMode : Set := PushToTalk | Toggle.

Record AppSettings : Type := mkAppSettings {
  active_provider : ProviderId;
  interaction_mode : InteractionMode;
  hotkey : string;
  language : string;
  provider_configs : gmap string ProviderConfig;
  local_whisper_model_path : option string;
  constme_whisper_dll_path : option string;
  constme_whisper_model_path : option string;
  constme_whisper_model_name : option string;
  auto_paste : bool;
  show_overlay : bool;
  input_device : option string
}.

Record AudioDevice : Type := mkAudioDevice {
  device_name : string;
  is_default : bool
}.

Record TranscriptionResult : Type := mkTranscriptionResult {
  result_text : string;
  result_provider : ProviderId;
  result_duration_ms : N;
  result_language : option string
}.

Record TranscriptionEntry : Type := mkTranscriptionEntry {
  id : string;
  text : string;
  provider : ProviderId;
  timestamp : string;
  duration_ms : N;
  entry_language : option string
}.

Record ProviderInfo : Type := mkProviderInfo {
  info_id : ProviderId;
  info_name : string;
  available : bool
}.

Record ConstmeModelStatus : Type := mkConstmeModelStatus {
  model_name : string;
  filename : string;
  size_description : string;
  model_available : bool;
  path : option string
}.

Record ConstmeWhisperStatus : Type := mkConstmeWhisperStatus {
  dll_available : bool;
  dll_path : option string;
  models : list ConstmeModelStatus
}.

(** Payload of the [download-progress] event as the listener reads it. *)
Record DownloadProgress : Type := mkDownloadProgress {
  item : string;
  downloaded_bytes : N;
  total_bytes : option N;
  done : bool
}.

(** [keyof AppSettings]. *)
Inductive SettingsKey : Set :=
| K_active_provider | K_interaction_mode | K_hotkey | K_language
| K_provider_configs | K_local_whisper_model_path
| K_constme_whisper_dll_path | K_constme_whisper_model_path
| K_constme_whisper_model_name | K_auto_paste | K_show_overlay
| K_input_device.

(** [AppSettings[K]]. *)
Definition FieldType (k : SettingsKey) : Type :=
  match k with
  | K_active_provider => ProviderId
  | K_interaction_mode => InteractionMode
  | K_hotkey => string
  | K_language => string
  | K_provider_configs => gmap string ProviderConfig
  | K_local_whisper_model_path => option string
  | K_constme_whisper_dll_path => option string
  | K_constme_whisper_model_path => option string
  | K_constme_whisper_model_name => option string
  | K_auto_paste => bool
  | K_show_overlay => bool
  | K_input_device => option string
  end.

(** [s[k]]. *)
Definition getField (k : SettingsKey) (s : AppSettings) : FieldType k :=
  match k as k0 return FieldType k0 with
  | K_active_provider => active_provider s
  | K_interaction_mode => interaction_mode s
  | K_hotkey => hotkey s
  | K_language => language s
  | K_provider_configs => provider_configs s
  | K_local_whisper_model_path => local_whisper_model_path s
  | K_constme_whisper_dll_path => constme_whisper_dll_path s
  | K_constme_whisper_model_path => constme_whisper_model_path s
  | K_constme_whisper_model_name => constme_whisper_model_name s
  | K_auto_paste => auto_paste s
  | K_show_overlay => show_overlay s
  | K_input_device => input_device s
  end.

(** The object spread [{ ...s, [k]: v }]. *)
Definition spreadField (k : SettingsKey) (v : FieldType k) (s : AppSettings)
  : AppSettings :=
  let '(mkAppSettings ap im hk lg pc lw cd cm cn aup so idv) := s in
  match k as k0 return FieldType k0 -> AppSettings with
  | K_active_provider => fun x => mkAppSettings x im hk lg pc lw cd cm cn aup so idv
  | K_interaction_mode => fun x => mkAppSettings ap x hk lg pc lw cd cm cn aup so idv
  | K_hotkey => fun x => mkAppSettings ap im x lg pc lw cd cm cn aup so idv
  | K_language => fun x => mkAppSettings ap im hk x pc lw cd cm cn aup so idv
  | K_provider_configs => fun x => mkAppSettings ap im hk lg x lw cd cm cn aup so idv
  | K_local_whisper_model_path => fun x => mkAppSettings ap im hk lg pc x cd cm cn aup so idv
  | K_constme_whisper_dll_path => fun x => mkAppSettings ap im hk lg pc lw x cm cn aup so idv
  | K_constme_whisper_model_path => fun x => mkAppSettings ap im hk lg pc lw cd x cn aup so idv
  | K_constme_whisper_model_name => fun x => mkAppSettings ap im hk lg pc lw cd cm x aup so idv
  | K_auto_paste => fun x => mkAppSettings ap im hk lg pc lw cd cm cn x so idv
  | K_show_overlay => fun x => mkAppSettings ap im hk lg pc lw cd cm cn aup x idv
  | K_input_device => fun x => mkAppSettings ap im hk lg pc lw cd cm cn aup so x
  end v.

End Types.

Export Types.

(** ** The Tauri runtime *)

Module Tauri.

(** What the engine answers to each command.  [window.__TAURI_INTERNALS__]
    is present exactly when an engine is attached: the [isTauri] constant
    of commands.ts and events.ts is [Some engine], and headless mode is
    [None]. *)
Record Engine : Type := mkEngine {
  start_recording : Promise unit;
  stop_recording_and_transcribe : Promise string;
  get_recording_state : Promise bool;
  get_settings : Promise AppSettings;
  save_settings : AppSettings -> Promise unit;
  get_history : Promise (list TranscriptionEntry);
  clear_history : Promise unit;
  get_providers : Promise (list ProviderInfo);
  list_input_devices : Promise (list AudioDevice);
  get_constme_whisper_status : Promise ConstmeWhisperStatus;
  download_constme_dll : Promise string;
  download_constme_model : string -> Promise string
}.

End Tauri.

Export Tauri.

(** ** lib/commands.ts *)

Module Commands.

Definition tauriInvoke {T : Type} (isTauri : option Engine)
    (cmd : Engine -> Promise T) : Promise T :=
  match isTauri with
  | None => Rejected "Not running in Tauri"
  | Some engine => cmd engine
  end.

Definition DEFAULT_HOTKEY : string := "CommandOrControl+Shift+Space".

Definition defaultSettings : AppSettings := {|
  active_provider := OpenAiWhisper;
  interaction_mode := Toggle;
  hotkey := DEFAULT_HOTKEY;
  language := "auto";
  provider_configs := ∅;
  local_whisper_model_path := None;
  constme_whisper_dll_path := None;
  constme_whisper_model_path := None;
  constme_whisper_model_name := None;
  auto_paste := true;
  show_overlay := true;
  input_device := None
|}.

Definition defaultProviders : list ProviderInfo := [
  mkProviderInfo OpenAiWhisper "OpenAI Whisper" true;
  mkProviderInfo GoogleCloud "Google Cloud Speech-to-Text" true;
  mkProviderInfo LocalWhisper "Local Whisper (whisper.cpp)" false;
  mkProviderInfo NativeStt "Native OS Speech-to-Text" true;
  mkProviderInfo ConstmeWhisper "Whisper GPU (DirectCompute)" false
].

Section WithEngine.
Variable isTauri : option Engine.

Definition startRecording : Promise unit :=
  tauriInvoke isTauri start_recording.

Definition stopRecordingAndTranscribe : Promise string :=
  tauriInvoke isTauri stop_recording_and_transcribe.

Definition getRecordingState : Promise bool :=
  Js.catch (tauriInvoke isTauri get_recording_state) (fun _ => false).

Definition getSettings : Promise AppSettings :=
  Js.catch (tauriInvoke isTauri get_settings) (fun _ => defaultSettings).

Definition saveSettings (settings : AppSettings) : Promise unit :=
  tauriInvoke isTauri (fun engine => save_settings engine settings).

Definition getHistory : Promise (list TranscriptionEntry) :=
  Js.catch (tauriInvoke isTauri get_history) (fun _ => []).

Definition clearHistory : Promise unit :=
  tauriInvoke isTauri clear_history.

Definition getProviders : Promise (list ProviderInfo) :=
  Js.catch (tauriInvoke isTauri get_providers) (fun _ => defaultProviders).

Definition listInputDevices : Promise (list AudioDevice) :=
  Js.catch (tauriInvoke isTauri list_input_devices) (fun _ => []).

Definition getConstmeWhisperStatus : Promise ConstmeWhisperStatus :=
  tauriInvoke isTauri get_constme_whisper_status.

Definition downloadConstmeDll : Promise string :=
  tauriInvoke isTauri download_constme_dll.

Definition downloadConstmeModel (modelFilename : string) : Promise string :=
  tauriInvoke isTauri
    (fun engine => download_constme_model engine modelFilename).
End WithEngine.

End Commands.

(** ** lib/events.ts *)

Module Events.

(** The engine events that [setupEventListeners] listens for, with their
    payloads. *)
Inductive EngineEvent : Type :=
| recording_started
| recording_stopped
| transcribing
| transcription_complete (payload : TranscriptionResult)
| error_event (payload : string).

Definition eventName (ev : EngineEvent) : string :=
  match ev with
  | recording_started => "recording-started"
  | recording_stopped => "recording-stopped"
  | transcribing => "transcribing"
  | transcription_complete _ => "transcription-complete"
  | error_event _ => "error"
  end.

(** [EventCallbacks], acting on a state of type [St]. *)
Record EventCallbacks (St : Type) : Type := mkEventCallbacks {
  onRecordingStarted : St -> St;
  onRecordingStopped : St -> St;
  onTranscribing : St -> St;
  onTranscriptionComplete : TranscriptionResult -> St -> St;
  onError : string -> St -> St
}.
Arguments onRecordingStarted {St} _ _.
Arguments onRecordingStopped {St} _ _.
Arguments onTranscribing {St} _ _.
Arguments onTranscriptionComplete {St} _ _ _.
Arguments onError {St} _ _ _.

(** The listener registered under each event name. *)
Definition listener {St : Type} (callbacks : EventCallbacks St)
    (ev : EngineEvent) : St -> St :=
  match ev with
  | recording_started => onRecordingStarted callbacks
  | recording_stopped => onRecordingStopped callbacks
  | transcribing => onTranscribing callbacks
  | transcription_complete payload => onTranscriptionComplete callbacks payload
  | error_event payload => onError callbacks payload
  end.

(** [setupEventListeners]: the unlisten handles, one per registered
    event name, in registration order; none without an engine. *)
Definition setupEventListeners (isTauri : option Engine) : list string :=
  match isTauri with
  | None => []
  | Some _ =>
    let unlisteners : list string := [] in
    let unlisteners := (unlisteners ++ ["recording-started"])%list in
    let unlisteners := (unlisteners ++ ["recording-stopped"])%list in
    let unlisteners := (unlisteners ++ ["transcribing"])%list in
    let unlisteners := (unlisteners ++ ["transcription-complete"])%list in
    let unlisteners := (unlisteners ++ ["error"])%list in
    unlisteners
  end.

End Events.

(** ** stores/useAppStore.ts *)

Module Store.

Inductive View : Set := home | settings_view | history_view.

Record AppState : Type := mkAppState {
  isRecording : bool;
  isTranscribing : bool;
  settings : option AppSettings;
  history : list TranscriptionEntry;
  providers : list ProviderInfo;
  currentTranscription : string;
  error : option string;
  activeView : View
}.

Definition initial : AppState := {|
  isRecording := false;
  isTranscribing := false;
  settings := None;
  history := [];
  providers := [];
  currentTranscription := "";
  error := None;
  activeView := home
|}.

Definition setRecording (val : bool) (state : AppState) : AppState :=
  let '(mkAppState _ tr se hi pr ct er av) := state in
  mkAppState val tr se hi pr ct er av.

Definition setTranscribing (val : bool) (state : AppState) : AppState :=
  let '(mkAppState re _ se hi pr ct er av) := state in
  mkAppState re val se hi pr ct er av.

Definition setSettings (s : AppSettings) (state : AppState) : AppState :=
  let '(mkAppState re tr _ hi pr ct er av) := state in
  mkAppState re tr (Some s) hi pr ct er av.

Definition setHistory (entries : list TranscriptionEntry) (state : AppState)
  : AppState :=
  let '(mkAppState re tr se _ pr ct er av) := state in
  mkAppState re tr se entries pr ct er av.

(** [slice(0, 100)] keeps the first hundred elements. *)
Definition addHistory (entry : TranscriptionEntry) (state : AppState)
  : AppState :=
  let '(mkAppState re tr se hi pr ct er av) := state in
  mkAppState re tr se (take 100 (entry :: hi)) pr ct er av.

Definition setProviders (ps : list ProviderInfo) (state : AppState)
  : AppState :=
  let '(mkAppState re tr se hi _ ct er av) := state in
  mkAppState re tr se hi ps ct er av.

Definition setCurrentTranscription (t : string) (state : AppState)
  : AppState :=
  let '(mkAppState re tr se hi pr _ er av) := state in
  mkAppState re tr se hi pr t er av.

Definition setError (e : option string) (state : AppState) : AppState :=
  let '(mkAppState re tr se hi pr ct _ av) := state in
  mkAppState re tr se hi pr ct e av.

Definition setActiveView (view : View) (state : AppState) : AppState :=
  let '(mkAppState re tr se hi pr ct er _) := state in
  mkAppState re tr se hi pr ct er view.

End Store.

Export Store.

(** ** App.tsx *)

Module App.

Import Commands Events.

(** The two ambient reads of [onTranscriptionComplete]:
    [crypto.randomUUID()] and [new Date().toISOString()]. *)
Record Ambient : Type := mkAmbient {
  randomUUID : string;
  nowISOString : string
}.

(** The callbacks handed to [setupEventListeners]. *)
Definition callbacks (env : Ambient) : EventCallbacks AppState := {|
  onRecordingStarted := fun st =>
    let st := setRecording true st in
    setError None st;
  onRecordingStopped := fun st =>
    setRecording false st;
  onTranscribing := fun st =>
    setTranscribing true st;
  onTranscriptionComplete := fun result st =>
    let st := setTranscribing false st in
    let st := setCurrentTranscription (result_text result) st in
    addHistory {|
      id := randomUUID env;
      text := result_text result;
      provider := result_provider result;
      timestamp := nowISOString env;
      duration_ms := result_duration_ms result;
      entry_language := result_language result
    |} st;
  onError := fun err st =>
    let st := setRecording false st in
    let st := setTranscribing false st in
    setError (Some err) st
|}.

(** One engine event reaching its listener. *)
Definition deliver (st : AppState) (d : Ambient * EngineEvent) : AppState :=
  listener (callbacks (fst d)) (snd d) st.

(** A sequence of engine events, each handled to completion in turn. *)
Definition run (st : AppState) (ds : list (Ambient * EngineEvent))
  : AppState :=
  fold_left deliver ds st.

(** What a click handler does besides returning: the command wrappers it
    calls and what it writes to the console. *)
Inductive Effect : Type :=
| Dispatch (cmd : string)
| ConsoleError (msg err : string).

Definition handleMicClick (isTauri : option Engine) (st : AppState)
  : AppState * list Effect :=
  if isTranscribing st then (st, [])
  else if isRecording st then
    match stopRecordingAndTranscribe isTauri with
    | Resolved _ => (st, [Dispatch "stop_recording_and_transcribe"])
    | Rejected e =>
        (st, [Dispatch "stop_recording_and_transcribe";
              ConsoleError "Recording toggle failed:" e])
    end
  else
    match startRecording isTauri with
    | Resolved _ => (st, [Dispatch "start_recording"])
    | Rejected e =>
        (st, [Dispatch "start_recording";
              ConsoleError "Recording toggle failed:" e])
    end.

(** The ordering the engine keeps between its events: it announces
    [transcribing] only once recording has stopped, and a new
    [recording-started] only once transcription is over. *)
Fixpoint engineOrdered (st : AppState) (ds : list (Ambient * EngineEvent))
  : bool :=
  match ds with
  | [] => true
  | d :: rest =>
      match snd d with
      | recording_started => negb (isTranscribing st)
      | transcribing => negb (isRecording st)
      | _ => true
      end && engineOrdered (deliver st d) rest
  end.

End App.

(** ** components/HotkeyDisplay.tsx *)

Module HotkeyDisplay.

(** [isMac] is [navigator.platform.toUpperCase().includes("MAC")]. *)
Definition formatKeyLabel (isMac : bool) (key : string) : string :=
  if String.eqb key "CommandOrControl" then (if isMac then "⌘" else "Ctrl")
  else if String.eqb key "Control" then (if isMac then "⌃" else "Ctrl")
  else if String.eqb key "Shift" then (if isMac then "⇧" else "Shift")
  else if String.eqb key "Alt" then (if isMac then "⌥" else "Alt")
  else if String.eqb key "Meta" || String.eqb key "Command" then "⌘"
  else if String.eqb key "Space" then "Space"
  else key.

(** The labels rendered by [HotkeyDisplay], one per key cap. *)
Definition HotkeyDisplay (isMac : bool) (hotkey : string) : list string :=
  let keys := Js.split "+" hotkey in
  map (formatKeyLabel isMac) keys.

End HotkeyDisplay.

(** ** components/settings/SettingsPanel.tsx *)

Module SettingsPanel.

Import Commands.

Record KeyboardEvent : Type := mkKeyboardEvent {
  key : string;
  ctrlKey : bool;
  metaKey : bool;
  altKey : bool;
  shiftKey : bool
}.

(** The panel: the store it reads and writes, its [useState] cells, the
    timeouts it has scheduled and what it wrote to the console. *)
Record Panel : Type := mkPanel {
  store : AppState;
  localSettings : option AppSettings;
  saving : bool;
  saved : bool;
  isRecordingHotkey : bool;
  timeouts : list N;
  console : list (string * string)
}.

Definition setLocalSettings (f : option AppSettings -> option AppSettings)
    (p : Panel) : Panel :=
  let '(mkPanel st ls sv sd rh ts cs) := p in
  mkPanel st (f ls) sv sd rh ts cs.

Definition setSaving (val : bool) (p : Panel) : Panel :=
  let '(mkPanel st ls _ sd rh ts cs) := p in mkPanel st ls val sd rh ts cs.

Definition setSaved (val : bool) (p : Panel) : Panel :=
  let '(mkPanel st ls sv _ rh ts cs) := p in mkPanel st ls sv val rh ts cs.

Definition setIsRecordingHotkey (val : bool) (p : Panel) : Panel :=
  let '(mkPanel st ls sv sd _ ts cs) := p in mkPanel st ls sv sd val ts cs.

Definition setTimeout (ms : N) (p : Panel) : Panel :=
  let '(mkPanel st ls sv sd rh ts cs) := p in
  mkPanel st ls sv sd rh (ts ++ [ms])%list cs.

Definition consoleError (msg err : string) (p : Panel) : Panel :=
  let '(mkPanel st ls sv sd rh ts cs) := p in
  mkPanel st ls sv sd rh ts (cs ++ [(msg, err)])%list.

(** The effect on [[settings]]: the draft is re-made as a copy of the
    canonical settings whenever these change. *)
Definition settingsEffect (p : Panel) : Panel :=
  match settings (store p) with
  | Some s => setLocalSettings (fun _ => Some s) p
  | None => p
  end.

(** The store's [setSettings], followed by the effect it triggers. *)
Definition setSettings (s : AppSettings) (p : Panel) : Panel :=
  let '(mkPanel st ls sv sd rh ts cs) := p in
  settingsEffect (mkPanel (Store.setSettings s st) ls sv sd rh ts cs).

Definition updateField (k : SettingsKey) (value : FieldType k) (p : Panel)
  : Panel :=
  setLocalSettings
    (fun prev => match prev with
                 | Some prev => Some (spreadField k value prev)
                 | None => prev
                 end) p.

(** [value || null]: the empty string is the only falsy string. *)
Definition orNull (value : string) : option string :=
  if String.eqb value "" then None else Some value.

(** [{ ...configs[providerId] }]: spreading [undefined] gives [{}]. *)
Definition spreadConfig (c : option ProviderConfig) : ProviderConfig :=
  match c with
  | Some c => c
  | None => ∅
  end.

Definition updateProviderConfig (providerId field value : string)
    (p : Panel) : Panel :=
  setLocalSettings
    (fun prev =>
       match prev with
       | None => prev
       | Some prev =>
           let configs := provider_configs prev in
           let configs :=
             <[providerId := <[field := orNull value]>
                               (spreadConfig (configs !! providerId))]>
               configs in
           Some (spreadField K_provider_configs configs prev)
       end) p.

Definition handleSave (isTauri : option Engine) (p : Panel) : Panel :=
  match localSettings p with
  | None => p
  | Some draft =>
      let p := setSaving true p in
      let p :=
        match saveSettings isTauri draft with
        | Resolved _ =>
            let p := setSettings draft p in
            let p := setSaved true p in
            setTimeout 2000 p
        | Rejected e => consoleError "Failed to save settings:" e p
        end in
      setSaving false p
  end.

Section Hotkey.
(** [String.prototype.toUpperCase]. *)
Variable toUpperCase : string -> string.

(** The [parts] array of [handleHotkeyKeyDown] once the terminal key
    has been pushed. *)
Definition hotkeyParts (e : KeyboardEvent) : list string :=
  let parts : list string := [] in
  let parts :=
    if ctrlKey e || metaKey e then (parts ++ ["CommandOrControl"])%list
    else parts in
  let parts := if altKey e then (parts ++ ["Alt"])%list else parts in
  let parts := if shiftKey e then (parts ++ ["Shift"])%list else parts in
  let key :=
    if String.eqb (key e) " " then "Space"
    else if (String.length (key e) =? 1)%nat then toUpperCase (key e)
    else key e in
  (parts ++ [key])%list.

(** Leaving the field ([blur]) also runs [onBlur], which clears
    [isRecordingHotkey]. *)
Definition handleHotkeyKeyDown (e : KeyboardEvent) (p : Panel) : Panel :=
  if String.eqb (key e) "Escape" then
    setIsRecordingHotkey false p
  else if String.eqb (key e) "Backspace" || String.eqb (key e) "Delete" then
    let p := updateField K_hotkey DEFAULT_HOTKEY p in
    setIsRecordingHotkey false p
  else if existsb (String.eqb (key e))
            ["Control"; "Alt"; "Shift"; "Meta"; "Command"] then
    p
  else
    let p := updateField K_hotkey (Js.join "+" (hotkeyParts e)) p in
    setIsRecordingHotkey false p.
End Hotkey.

End SettingsPanel.

(** ** ConstmeWhisperSettings (components/settings/SettingsPanel.tsx) *)

Module ConstmeWhisperSettings.

Import Commands.

(** [bytes] is a byte count: a JS number whose value is a non-negative
    integer, so that dividing it by a power of two is exact. *)
Definition formatBytes (bytes : N) : string :=
  if (bytes <? 1024)%N then Js.decimal bytes ++ " B"
  else if (bytes <? 1024 * 1024)%N then
    Js.toFixed 1 bytes 1024 ++ " KB"
  else if (bytes <? 1024 * 1024 * 1024)%N then
    Js.toFixed 1 bytes (1024 * 1024) ++ " MB"
  else Js.toFixed 2 bytes (1024 * 1024 * 1024) ++ " GB".

(** The [useState] cells of the component. *)
Record Cells : Type := mkCells {
  status : option ConstmeWhisperStatus;
  downloading : option string;
  downloadProgress : string;
  error : option string
}.

Definition initialCells : Cells := mkCells None None "" None.

Definition setStatus (s : option ConstmeWhisperStatus) (c : Cells) : Cells :=
  let '(mkCells _ dl dp er) := c in mkCells s dl dp er.

Definition setDownloadProgress (line : string) (c : Cells) : Cells :=
  let '(mkCells st dl _ er) := c in mkCells st dl line er.

Definition loadStatus (isTauri : option Engine) (c : Cells) : Cells :=
  match getConstmeWhisperStatus isTauri with
  | Resolved s => setStatus (Some s) c
  | Rejected _ => c
  end.

(** [total_bytes ? ... : "?"]: [null] and [0] are both falsy. *)
Definition totalLabel (total_bytes : option N) : string :=
  match total_bytes with
  | Some t => if (t =? 0)%N then "?" else formatBytes t
  | None => "?"
  end.

(** The [download-progress] listener. *)
Definition onDownloadProgress (isTauri : option Engine)
    (payload : DownloadProgress) (c : Cells) : Cells :=
  if done payload then
    let c := setDownloadProgress "" c in
    loadStatus isTauri c
  else
    let downloaded := formatBytes (downloaded_bytes payload) in
    let total := totalLabel (total_bytes payload) in
    setDownloadProgress
      (item payload ++ ": " ++ downloaded ++ " / " ++ total) c.

End ConstmeWhisperSettings.

(** ** Vocabulary of the properties *)

Module Props.

Import App.

(** The pair of lifecycle flags. *)
Definition flags (st : AppState) : bool * bool :=
  (isRecording st, isTranscribing st).

(** Idle, Recording or Transcribing. *)
Definition flagsAllowed (st : AppState) : Prop :=
  flags st = (false, false) \/ flags st = (true, false)
  \/ flags st = (false, true).

(** Appending a batch of entries, oldest first. *)
Definition appendAll (st : AppState) (entries : list TranscriptionEntry)
  : AppState :=
  fold_left (fun st entry => addHistory entry st) entries st.

(** Everything in the store except the history. *)
Definition sameButHistory (a b : AppState) : Prop :=
  isRecording a = isRecording b /\ isTranscribing a = isTranscribing b
  /\ settings a = settings b /\ providers a = providers b
  /\ currentTranscription a = currentTranscription b
  /\ error a = error b /\ activeView a = activeView b.

(** [(s.provider_configs[providerId] || {})[field]]: [None] when the
    property is absent ([undefined]), [Some None] when it is [null]. *)
Definition readProviderField (s : AppSettings) (providerId field : string)
  : option (option string) :=
  SettingsPanel.spreadConfig (provider_configs s !! providerId) !! field.

(** The canonical settings of a panel: those of the store. *)
Definition canonical (p : SettingsPanel.Panel) : option AppSettings :=
  settings (SettingsPanel.store p).

(** The tokens [formatKeyLabel] has a case for. *)
Definition recognizedTokens : list string :=
  ["CommandOrControl"; "Control"; "Shift"; "Alt"; "Meta"; "Command";
   "Space"].

(** The modifier tokens in the order a chord lists them. *)
Definition modifierOrder : list string := ["CommandOrControl"; "Alt"; "Shift"].

(** Whether the modifier behind a token is held during a key press. *)
Definition held (e : SettingsPanel.KeyboardEvent) (token : string) : bool :=
  if String.eqb token "CommandOrControl" then
    SettingsPanel.ctrlKey e || SettingsPanel.metaKey e
  else if String.eqb token "Alt" then SettingsPanel.altKey e
  else if String.eqb token "Shift" then SettingsPanel.shiftKey e
  else false.

(** The stored hotkey of a panel's draft. *)
Definition draftHotkey (p : SettingsPanel.Panel) : option string :=
  hotkey <$> SettingsPanel.localSettings p.

(** The key names [handleHotkeyKeyDown] treats before building a chord. *)
Definition reservedKeys : list string :=
  ["Escape"; "Backspace"; "Delete";
   "Control"; "Alt"; "Shift"; "Meta"; "Command"].

End Props.

(** ** Concrete inputs used by the examples *)

Module Samples.

Import App Events.

Definition env : Ambient :=
  mkAmbient "3f0c1a52-7c1e-4b59-9d5e-0a6d2f1b8c11" "2024-05-01T10:00:00.000Z".

Definition result : TranscriptionResult :=
  mkTranscriptionResult "hello world" OpenAiWhisper 1200 (Some "en").

(** The [n]-th entry of a numbered run of transcriptions. *)
Definition entry (n : nat) : TranscriptionEntry :=
  mkTranscriptionEntry ("id-" ++ pretty n) ("take " ++ pretty n)
    OpenAiWhisper "2024-05-01T10:00:00.000Z" (N.of_nat n) None.

Definition entries (first count : nat) : list TranscriptionEntry :=
  map entry (seq first count).

(** A full recording session as the engine reports it. *)
Definition session : list (Ambient * EngineEvent) :=
  [ (env, recording_started); (env, recording_stopped);
    (env, transcribing); (env, transcription_complete result);
    (env, recording_started); (env, error_event "microphone lost") ].

(** [transcribing] arriving before [recording-stopped]. *)
Definition overlap : list (Ambient * EngineEvent) :=
  [ (env, recording_started); (env, transcribing) ].

Definition transcribingState : AppState :=
  setTranscribing true initial.

(** An engine that accepts every command. *)
Definition engine : Engine := {|
  start_recording := Resolved tt;
  stop_recording_and_transcribe := Resolved "hello world";
  get_recording_state := Resolved true;
  get_settings := Resolved Commands.defaultSettings;
  save_settings := fun _ => Resolved tt;
  get_history := Resolved [];
  clear_history := Resolved tt;
  get_providers := Resolved Commands.defaultProviders;
  list_input_devices := Resolved [mkAudioDevice "Built-in Microphone" true];
  get_constme_whisper_status := Resolved (mkConstmeWhisperStatus false None []);
  download_constme_dll := Resolved "C:/whisper/Whisper.dll";
  download_constme_model := fun f => Resolved ("C:/whisper/" ++ f)
|}.

(** The same engine with a store that refuses to write settings. *)
Definition readOnlyEngine : Engine := {|
  start_recording := Resolved tt;
  stop_recording_and_transcribe := Resolved "hello world";
  get_recording_state := Resolved true;
  get_settings := Resolved Commands.defaultSettings;
  save_settings := fun _ => Rejected "settings file is read-only";
  get_history := Resolved [];
  clear_history := Resolved tt;
  get_providers := Resolved Commands.defaultProviders;
  list_input_devices := Resolved [];
  get_constme_whisper_status := Rejected "no GPU";
  download_constme_dll := Rejected "offline";
  download_constme_model := fun _ => Rejected "offline"
|}.

(** The settings panel open on the default settings. *)
Definition panel : SettingsPanel.Panel := {|
  SettingsPanel.store := Store.setSettings Commands.defaultSettings initial;
  SettingsPanel.localSettings := Some Commands.defaultSettings;
  SettingsPanel.saving := false;
  SettingsPanel.saved := false;
  SettingsPanel.isRecordingHotkey := true;
  SettingsPanel.timeouts := [];
  SettingsPanel.console := []
|}.

(** Ctrl+Shift held, space bar pressed. *)
Definition ctrlShiftSpace : SettingsPanel.KeyboardEvent :=
  SettingsPanel.mkKeyboardEvent " " true false false true.

(** The A key pressed with nothing held. *)
Definition plainA : SettingsPanel.KeyboardEvent :=
  SettingsPanel.mkKeyboardEvent "a" false false false false.

(** The space bar pressed with nothing held. *)
Definition plainSpace : SettingsPanel.KeyboardEvent :=
  SettingsPanel.mkKeyboardEvent " " false false false false.

(** Two downloads reporting progress. *)
Definition modelProgress : DownloadProgress :=
  mkDownloadProgress "ggml-medium.bin" 1536 (Some (3 * 1024 * 1024)%N) false.

Definition dllDone : DownloadProgress :=
  mkDownloadProgress "Whisper.dll" 431616 (Some 431616%N) true.

Definition dllProgress : DownloadProgress :=
  mkDownloadProgress "Whisper.dll" 512 None false.

End Samples.

(** ** HistoryList (components/history/HistoryList.tsx) *)

Module HistoryList.

Import Commands.

(** The mount effect: [getHistory().then(setHistory)]. *)
Definition mount (isTauri : option Engine) (st : AppState) : AppState :=
  match getHistory isTauri with
  | Resolved entries => setHistory entries st
  | Rejected _ => st
  end.

(** [handleClear] has no [try]: when [clearHistory] rejects, the line after
    the [await] is not reached and the promise of the handler rejects. *)
Definition handleClear (isTauri : option Engine) (st : AppState)
  : AppState * Promise unit :=
  match clearHistory isTauri with
  | Resolved _ => (setHistory [] st, Resolved tt)
  | Rejected e => (st, Rejected e)
  end.

(** [history.length > 0 &&]: whether the "Clear All" button is rendered. *)
Definition showsClearAll (st : AppState) : bool :=
  negb (length (history st) =? 0)%nat.

End HistoryList.

(** ** App.tsx: mounting and the home view *)

Module AppView.

Import Commands.

(** The three loads of the mount effect; each [then] sets its own field. *)
Definition mount (isTauri : option Engine) (st : AppState) : AppState :=
  let st := match getSettings isTauri with
            | Resolved s => Store.setSettings s st
            | Rejected _ => st
            end in
  let st := match getHistory isTauri with
            | Resolved entries => setHistory entries st
            | Rejected _ => st
            end in
  match getProviders isTauri with
  | Resolved ps => setProviders ps st
  | Rejected _ => st
  end.

(** [settings?.hotkey || DEFAULT_HOTKEY]. *)
Definition displayedHotkey (st : AppState) : string :=
  match settings st with
  | Some s => if String.eqb (hotkey s) "" then DEFAULT_HOTKEY else hotkey s
  | None => DEFAULT_HOTKEY
  end.

(** What the home view renders from the store. *)
Record HomeView : Type := mkHomeView {
  micDisabled : bool;
  statusLine : string;
  hotkeyShown : option string;
  lastTranscription : option string;
  errorBanner : option string
}.

Definition homeView (st : AppState) : HomeView := {|
  micDisabled := isTranscribing st;
  statusLine :=
    if isRecording st then "Recording... click to stop"
    else if isTranscribing st then "Transcribing..."
    else "Click or press hotkey to record";
  hotkeyShown :=
    if negb (isRecording st) && negb (isTranscribing st)
    then Some (displayedHotkey st) else None;
  lastTranscription :=
    if String.eqb (currentTranscription st) "" then None
    else Some (currentTranscription st);
  errorBanner :=
    match error st with
    | Some e => if String.eqb e "" then None else Some e
    | None => None
    end
|}.

(** components/recording/RecordingIndicator.tsx: nothing when idle, else
    the labels shown. *)
Definition RecordingIndicator (st : AppState) : option (list string) :=
  if negb (isRecording st) && negb (isTranscribing st) then None
  else Some ((if isRecording st then ["Recording..."] else [])
             ++ (if isTranscribing st then ["Transcribing..."] else []))%list.

End AppView.

(** ** ConstmeWhisperSettings: the download and select handlers *)

Module ConstmeHandlers.

Import Commands SettingsPanel ConstmeWhisperSettings.

Definition setDownloading (d : option string) (c : Cells) : Cells :=
  let '(mkCells st _ dp er) := c in mkCells st d dp er.

Definition setError (e : option string) (c : Cells) : Cells :=
  let '(mkCells st dl dp _) := c in mkCells st dl dp e.

(** [disabled={downloading !== null}] on the download buttons. *)
Definition downloadDisabled (c : Cells) : bool :=
  match downloading c with
  | Some _ => true
  | None => false
  end.

(** A run of [download-progress] events through the listener. *)
Definition progressRun (isTauri : option Engine) (c : Cells)
    (events : list DownloadProgress) : Cells :=
  fold_left (fun c payload => onDownloadProgress isTauri payload c) events c.

(** The click handler of an available model: [if (model.path)] passes for
    a path that is neither null nor empty. *)
Definition selectModel (model : ConstmeModelStatus) (p : Panel) : Panel :=
  match path model with
  | Some pth =>
      if String.eqb pth "" then p
      else
        let p := updateField K_constme_whisper_model_path (Some pth) p in
        updateField K_constme_whisper_model_name (Some (filename model)) p
  | None => p
  end.

Section Handlers.
(** The text a template literal gives for a caught rejection carrying this
    message. *)
Variable errorText : string -> string.

(** The component's cells and the panel whose [updateField] it was handed. *)
Definition handleDownloadDll (isTauri : option Engine) (s : Cells * Panel)
  : Cells * Panel :=
  let '(c, p) := s in
  let c := setDownloading (Some "dll") c in
  let c := setError None c in
  let '(c, p) :=
    match downloadConstmeDll isTauri with
    | Resolved pth =>
        let p := updateField K_constme_whisper_dll_path (Some pth) p in
        (loadStatus isTauri c, p)
    | Rejected e =>
        (setError (Some ("DLL download failed: " ++ errorText e)) c, p)
    end in
  (setDownloading None c, p).

Definition handleDownloadModel (isTauri : option Engine) (file : string)
    (s : Cells * Panel) : Cells * Panel :=
  let '(c, p) := s in
  let c := setDownloading (Some file) c in
  let c := setError None c in
  let '(c, p) :=
    match downloadConstmeModel isTauri file with
    | Resolved pth =>
        let p := updateField K_constme_whisper_model_path (Some pth) p in
        let p := updateField K_constme_whisper_model_name (Some file) p in
        (loadStatus isTauri c, p)
    | Rejected e =>
        (setError (Some ("Model download failed: " ++ errorText e)) c, p)
    end in
  (setDownloading None c, p).
End Handlers.

End ConstmeHandlers.

(** ** handleSave, step by step *)

Module PendingSave.

Import Commands SettingsPanel.

(** The click: [handleSave] runs up to its [await], holding on to the
    draft it was rendered with. *)
Definition handleSaveClick (p : Panel) : option AppSettings * Panel :=
  match localSettings p with
  | None => (None, p)
  | Some draft => (Some draft, setSaving true p)
  end.

(** The rest of [handleSave], run when [saveSettings] settles: [captured]
    is the draft held since the click, [p] the panel as it is by then. *)
Definition handleSaveSettle (captured : AppSettings) (answer : Promise unit)
    (p : Panel) : Panel :=
  let p :=
    match answer with
    | Resolved _ =>
        let p := SettingsPanel.setSettings captured p in
        let p := setSaved true p in
        setTimeout 2000 p
    | Rejected e => consoleError "Failed to save settings:" e p
    end in
  setSaving false p.

End PendingSave.

(** ** Vocabulary of the further properties *)

Module Observations.

Import App Events.

(** The entry [onTranscriptionComplete] makes of a result. *)
Definition entryOf (env : Ambient) (result : TranscriptionResult)
  : TranscriptionEntry := {|
  id := randomUUID env;
  text := result_text result;
  provider := result_provider result;
  timestamp := nowISOString env;
  duration_ms := result_duration_ms result;
  entry_language := result_language result
|}.

(** The entries a sequence of events gives rise to, oldest first. *)
Definition entriesOf (ds : list (Ambient * EngineEvent))
  : list TranscriptionEntry :=
  flat_map (fun d => match snd d with
                     | transcription_complete result => [entryOf (fst d) result]
                     | _ => []
                     end) ds.

(** Number of occurrences of a character. *)
Fixpoint countChar (c : ascii) (s : string) : nat :=
  match s with
  | EmptyString => 0
  | String c' rest => (if Ascii.eqb c' c then 1 else 0) + countChar c rest
  end.

(** A token that holds no "+". *)
Definition plusFree (s : string) : Prop := countChar "+" s = 0.

(** The terminal token of a chord. *)
Definition terminalToken (toUpperCase : string -> string)
    (e : SettingsPanel.KeyboardEvent) : string :=
  List.last (SettingsPanel.hotkeyParts toUpperCase e) "".

(** Everything in a panel except the draft and the capture flag. *)
Definition sameButDraft (a b : SettingsPanel.Panel) : Prop :=
  SettingsPanel.store a = SettingsPanel.store b
  /\ SettingsPanel.saving a = SettingsPanel.saving b
  /\ SettingsPanel.saved a = SettingsPanel.saved b
  /\ SettingsPanel.timeouts a = SettingsPanel.timeouts b
  /\ SettingsPanel.console a = SettingsPanel.console b.

(** Whether the last event of a run of progress events, if any, says
    [done]. *)
Definition lastDone (events : list DownloadProgress) : option bool :=
  done <$> last events.

(** What the [try]/[catch] of [handleMicClick] leaves in the console for
    an answer of the engine. *)
Definition toggleOutcome {T : Type} (answer : Promise T) : list Effect :=
  match answer with
  | Resolved _ => []
  | Rejected e => [ConsoleError "Recording toggle failed:" e]
  end.

End Observations.

(** ** Further concrete inputs *)

Module MoreSamples.

(** A history as the engine may return it on load: longer than the cap. *)
Definition loaded : AppState := setHistory (Samples.entries 0 150) initial.

(** An engine whose history store cannot be cleared. *)
Definition stuckEngine : Engine := {|
  start_recording := Resolved tt;
  stop_recording_and_transcribe := Resolved "hello world";
  get_recording_state := Resolved false;
  get_settings := Rejected "settings file is corrupt";
  save_settings := fun _ => Resolved tt;
  get_history := Resolved (Samples.entries 0 3);
  clear_history := Rejected "history file is locked";
  get_providers := Rejected "no provider registry";
  list_input_devices := Resolved [];
  get_constme_whisper_status := Resolved (mkConstmeWhisperStatus true None []);
  download_constme_dll := Rejected "offline";
  download_constme_model := fun _ => Rejected "offline"
|}.

(** Ctrl held, the plus key pressed. *)
Definition ctrlPlus : SettingsPanel.KeyboardEvent :=
  SettingsPanel.mkKeyboardEvent "+" true false false false.

(** Alt+Shift held, F5 pressed. *)
Definition altShiftF5 : SettingsPanel.KeyboardEvent :=
  SettingsPanel.mkKeyboardEvent "F5" false false true true.

Definition backspace : SettingsPanel.KeyboardEvent :=
  SettingsPanel.mkKeyboardEvent "Backspace" true false true false.

(** A model the engine lists as available without telling where it is. *)
Definition pathlessModel : ConstmeModelStatus :=
  mkConstmeModelStatus "Medium" "ggml-medium.bin" "1.5 GB" true None.

Definition mediumModel : ConstmeModelStatus :=
  mkConstmeModelStatus "Medium" "ggml-medium.bin" "1.5 GB" true
    (Some "C:/whisper/ggml-medium.bin").

(** A rejection shown as its message. *)
Definition plainText (e : string) : string := e.

(** An engine that answers with settings of its own. *)
Definition dutchSettings : AppSettings :=
  spreadField K_language "nl" Commands.defaultSettings.

Definition dutchEngine : Engine := {|
  start_recording := Resolved tt;
  stop_recording_and_transcribe := Resolved "hallo wereld";
  get_recording_state := Resolved false;
  get_settings := Resolved dutchSettings;
  save_settings := fun _ => Resolved tt;
  get_history := Rejected "history file is locked";
  clear_history := Resolved tt;
  get_providers := Resolved [mkProviderInfo NativeStt "Native OS Speech-to-Text" true];
  list_input_devices := Resolved [];
  get_constme_whisper_status := Rejected "no GPU";
  download_constme_dll := Rejected "offline";
  download_constme_model := fun _ => Rejected "offline"
|}.

End MoreSamples.

(** * Properties *)

Import Props.
Open Scope list_scope.

(** ** Lifecycle flags *)

Lemma flagsAllowed_iff st :
  flagsAllowed st <-> isRecording st && isTranscribing st = false.
Proof.
  unfold flagsAllowed, flags.
  destruct (isRecording st), (isTranscribing st); simpl;
    intuition congruence.
Qed.

Lemma deliver_keeps_flags st d :
  flagsAllowed st ->
  App.engineOrdered st [d] = true ->
  flagsAllowed (App.deliver st d).
Proof.
  rewrite !flagsAllowed_iff.
  destruct st as [re tr se hi pr ct er av], d as [env ev].
  destruct ev; simpl; intros Hst Hord;
    rewrite ?andb_true_r in Hord;
    try reflexivity;
    try (destruct re, tr; simpl in *; congruence).
Qed.

Lemma engineOrdered_cons st d ds :
  App.engineOrdered st (d :: ds) =
  App.engineOrdered st [d] && App.engineOrdered (App.deliver st d) ds.
Proof. simpl. now rewrite andb_true_r. Qed.

Lemma run_keeps_flags ds : forall st,
  flagsAllowed st ->
  App.engineOrdered st ds = true ->
  flagsAllowed (App.run st ds).
Proof.
  induction ds as [|d ds IH]; intros st Hst Hord.
  - exact Hst.
  - rewrite engineOrdered_cons in Hord.
    apply andb_true_iff in Hord as [Hd Hds].
    change (App.run st (d :: ds)) with (App.run (App.deliver st d) ds).
    apply IH; [now apply deliver_keeps_flags | exact Hds].
Qed.

(** The ordering is also needed: from an allowed state, an event that
    breaks it raises both flags. *)
Lemma unordered_event_raises_both st d :
  flagsAllowed st ->
  App.engineOrdered st [d] = false ->
  flags (App.deliver st d) = (true, true).
Proof.
  rewrite flagsAllowed_iff.
  destruct st as [re tr se hi pr ct er av], d as [env ev].
  destruct ev, re, tr; simpl; intros Hst Hord;
    try discriminate Hst; try discriminate Hord; reflexivity.
Qed.

(** C1, as stated, fails: the listeners set each flag on its own, so
    [recording-started] followed by [transcribing] leaves both flags
    raised. *)
Lemma both_flags_raised :
  flags (App.run initial Samples.overlap) = (true, true)
  /\ ~ flagsAllowed (App.run initial Samples.overlap).
Proof.
  split; [reflexivity|].
  rewrite flagsAllowed_iff. discriminate.
Qed.

(** C1, amended: from the initial state, every sequence of engine events in
    which [transcribing] is never delivered while recording and
    [recording-started] never while transcribing keeps the flags in Idle,
    Recording or Transcribing. *)
Theorem ordered_events_keep_flags_exclusive ds :
  App.engineOrdered initial ds = true ->
  flagsAllowed (App.run initial ds).
Proof.
  apply run_keeps_flags. left. reflexivity.
Qed.

Lemma ordered_events_keep_flags_exclusive_witness :
  App.engineOrdered initial Samples.session = true
  /\ flagsAllowed (App.run initial Samples.session).
Proof.
  split; [reflexivity|].
  apply (ordered_events_keep_flags_exclusive Samples.session). reflexivity.
Defined.

(** ** Recording toggle *)

(** C9: while transcribing, [handleMicClick] returns at once: it calls no
    command wrapper, writes nothing, and the state is the one it was given. *)
Theorem mic_click_ignored_while_transcribing isTauri st :
  isTranscribing st = true ->
  App.handleMicClick isTauri st = (st, []).
Proof.
  intros Htr. unfold App.handleMicClick. now rewrite Htr.
Qed.

Lemma mic_click_ignored_while_transcribing_witness :
  isTranscribing Samples.transcribingState = true
  /\ App.handleMicClick (Some Samples.engine) Samples.transcribingState
     = (Samples.transcribingState, []).
Proof.
  split; [reflexivity|].
  apply (mic_click_ignored_while_transcribing (Some Samples.engine)
           Samples.transcribingState).
  reflexivity.
Defined.

(** Outside transcription the click does reach a command wrapper. *)
Lemma mic_click_dispatches_when_idle :
  App.handleMicClick (Some Samples.engine) initial
  = (initial, [App.Dispatch "start_recording"]).
Proof. reflexivity. Qed.

(** ** Bounded history *)

Section History.

Implicit Types (st : AppState) (entry : TranscriptionEntry).
Implicit Types (entries : list TranscriptionEntry).

Lemma history_addHistory entry st :
  history (addHistory entry st) = take 100 (entry :: history st).
Proof. now destruct st. Qed.

Lemma addHistory_frame entry st : sameButHistory (addHistory entry st) st.
Proof. destruct st; repeat split. Qed.

Lemma take_app_take {A} (n : nat) (a b : list A) :
  take n (a ++ take n b) = take n (a ++ b).
Proof.
  rewrite !take_app, take_take.
  f_equal. f_equal. lia.
Qed.

(** A batch that is not empty leaves the newest hundred of the batch
    followed by the old history. *)
Lemma history_appendAll entries : forall entry st,
  history (appendAll st (entry :: entries))
  = take 100 (reverse (entry :: entries) ++ history st).
Proof.
  induction entries as [|e' entries IH]; intros e st.
  - simpl. apply history_addHistory.
  - change (appendAll st (e :: e' :: entries))
      with (appendAll (addHistory e st) (e' :: entries)).
    rewrite IH, history_addHistory, take_app_take.
    rewrite (reverse_cons _ e), <- app_assoc. reflexivity.
Qed.

Lemma history_appendAll_initial entries :
  history (appendAll initial entries) = take 100 (reverse entries).
Proof.
  destruct entries as [|e entries]; [reflexivity|].
  rewrite history_appendAll. simpl. now rewrite app_nil_r.
Qed.

(** C6: [addHistory] puts the entry in front and keeps the first hundred,
    whatever the history was, and touches nothing else; a hundred entries
    appended to the empty history are all there, newest first, and the
    hundred-and-first pushes out exactly the oldest of them. *)
Theorem addHistory_prepends_and_caps entry st oldest middle newest :
  length middle = 99 ->
  history (addHistory entry st) = take 100 (entry :: history st)
  /\ length (history (addHistory entry st)) <= 100
  /\ sameButHistory (addHistory entry st) st
  /\ history (appendAll initial (oldest :: middle))
     = reverse middle ++ [oldest]
  /\ history (appendAll initial (oldest :: middle ++ [newest]))
     = newest :: reverse middle
  /\ length (history (appendAll initial (oldest :: middle ++ [newest])))
     = 100.
Proof.
  intros Hlen.
  assert (Hfull : history (appendAll initial (oldest :: middle ++ [newest]))
                  = newest :: reverse middle).
  { rewrite history_appendAll_initial.
    rewrite reverse_cons, reverse_app. simpl.
    rewrite take_app_le by (rewrite length_reverse; lia).
    rewrite take_ge by (rewrite length_reverse; lia). reflexivity. }
  split; [apply history_addHistory|].
  split; [rewrite history_addHistory, length_take; lia|].
  split; [apply addHistory_frame|].
  split.
  - rewrite history_appendAll_initial, reverse_cons.
    apply take_ge. rewrite length_app, length_reverse. simpl. lia.
  - split; [exact Hfull|].
    rewrite Hfull. simpl. rewrite length_reverse. lia.
Qed.

End History.

Lemma addHistory_prepends_and_caps_witness :
  length (Samples.entries 1 99) = 99
  /\ history (appendAll initial
                (Samples.entry 0 :: Samples.entries 1 99 ++ [Samples.entry 100]))
     = Samples.entry 100 :: reverse (Samples.entries 1 99)
  /\ length (history (appendAll initial
                (Samples.entry 0 :: Samples.entries 1 99 ++ [Samples.entry 100])))
     = 100.
Proof.
  split; [reflexivity|].
  destruct (addHistory_prepends_and_caps (Samples.entry 0) initial
              (Samples.entry 0) (Samples.entries 1 99) (Samples.entry 100))
    as (_ & _ & _ & _ & Hfull & Hlen); [reflexivity|].
  split; [exact Hfull | exact Hlen].
Defined.

(** The oldest of 101 numbered entries is the one missing afterwards. *)
Example append_101_numbered :
  map Types.id (history (appendAll initial (Samples.entries 0 101)))
  = map (fun n => "id-" ++ pretty n)%string (reverse (seq 1 100)).
Proof. vm_compute. reflexivity. Qed.

(** C7, as stated, fails: [setHistory] stores the list it is given, so a
    list of 101 entries gives a history of 101. *)
Lemma setHistory_keeps_101 :
  length (history (setHistory (Samples.entries 0 101) initial)) = 101
  /\ ~ length (history (setHistory (Samples.entries 0 101) initial)) <= 100.
Proof.
  assert (H : length (history (setHistory (Samples.entries 0 101) initial))
              = 101) by reflexivity.
  split; [exact H | rewrite H; lia].
Qed.

(** C7, amended: [setHistory] overwrites the history with exactly the list
    it is given, of whatever length, and touches nothing else; only
    [addHistory] truncates. *)
Theorem setHistory_overwrites_verbatim
    (entries : list TranscriptionEntry) (st : AppState) :
  history (setHistory entries st) = entries
  /\ length (history (setHistory entries st)) = length entries
  /\ sameButHistory (setHistory entries st) st.
Proof.
  destruct st; repeat split.
Qed.

(** ** Headless mode *)

Section Headless.

Import Commands.

(** C3, as stated, fails: without an engine [start_recording] rejects
    (and so do the other commands that have no fallback). *)
Lemma headless_start_recording_raises :
  startRecording None = Rejected "Not running in Tauri"
  /\ ~ (Js.raises (startRecording None) = false
        /\ Js.raises (stopRecordingAndTranscribe None) = false
        /\ Js.raises (saveSettings None defaultSettings) = false
        /\ Js.raises (clearHistory None) = false
        /\ Js.raises (downloadConstmeDll None) = false
        /\ Js.raises (downloadConstmeModel None "ggml-medium.bin") = false).
Proof.
  split; [reflexivity|].
  intros [H _]. discriminate H.
Qed.

(** C3, amended: without an engine the commands that have a fallback
    resolve to it ([get_recording_state] to false, [get_settings] to the
    built-in defaults, [get_history] and [list_input_devices] to the empty
    list, [get_providers] to the built-in list) and subscription setup
    returns no handle; the commands without a fallback reject with
    "Not running in Tauri". *)
Theorem headless_fallbacks_and_rejections
    (settings : AppSettings) (modelFilename : string) :
  getRecordingState None = Resolved false
  /\ getSettings None = Resolved defaultSettings
  /\ getHistory None = Resolved []
  /\ listInputDevices None = Resolved []
  /\ getProviders None = Resolved defaultProviders
  /\ Events.setupEventListeners None = []
  /\ startRecording None = Rejected "Not running in Tauri"
  /\ stopRecordingAndTranscribe None = Rejected "Not running in Tauri"
  /\ saveSettings None settings = Rejected "Not running in Tauri"
  /\ clearHistory None = Rejected "Not running in Tauri"
  /\ getConstmeWhisperStatus None = Rejected "Not running in Tauri"
  /\ downloadConstmeDll None = Rejected "Not running in Tauri"
  /\ downloadConstmeModel None modelFilename
     = Rejected "Not running in Tauri".
Proof. repeat split. Qed.

(** The built-in defaults are the documented ones. *)
Lemma defaultSettings_documented :
  map info_id (take 1 defaultProviders) = [active_provider defaultSettings]
  /\ interaction_mode defaultSettings = Toggle
  /\ hotkey defaultSettings = "CommandOrControl+Shift+Space"
  /\ language defaultSettings = "auto"
  /\ provider_configs defaultSettings = ∅
  /\ auto_paste defaultSettings = true
  /\ show_overlay defaultSettings = true
  /\ input_device defaultSettings = None.
Proof. repeat split. Qed.

(** The rejections stop at the callers that wrap them in [try]/[catch]. *)
Lemma headless_mic_click_is_caught st :
  isTranscribing st = false ->
  exists cmd,
    App.handleMicClick None st
    = (st, [App.Dispatch cmd;
            App.ConsoleError "Recording toggle failed:" "Not running in Tauri"]).
Proof.
  intros Htr. unfold App.handleMicClick. rewrite Htr.
  destruct (isRecording st); eexists; reflexivity.
Qed.

(** With an engine attached the same wrappers pass its answer on. *)
Lemma attached_commands_reach_engine engine :
  startRecording (Some engine) = start_recording engine
  /\ getRecordingState (Some engine)
     = Js.catch (get_recording_state engine) (fun _ => false)
  /\ length (Events.setupEventListeners (Some engine)) = 5.
Proof. repeat split. Qed.

End Headless.

(** ** Draft and canonical settings *)

Section Settings.

Import Commands SettingsPanel.

Lemma getField_spreadField k v s : getField k (spreadField k v s) = v.
Proof. destruct s, k; reflexivity. Qed.

Lemma getField_spreadField_ne k k' v s :
  k' <> k -> getField k' (spreadField k v s) = getField k' s.
Proof. destruct s, k, k'; intros Hne; try reflexivity; congruence. Qed.

Lemma updateField_draft k v p draft :
  localSettings p = Some draft ->
  localSettings (updateField k v p) = Some (spreadField k v draft).
Proof. destruct p; simpl; intros ->; reflexivity. Qed.

Lemma updateField_store k v p : store (updateField k v p) = store p.
Proof. now destruct p. Qed.

Lemma handleSave_rejected isTauri p draft err :
  localSettings p = Some draft ->
  saveSettings isTauri draft = Rejected err ->
  handleSave isTauri p
  = setSaving false
      (consoleError "Failed to save settings:" err (setSaving true p)).
Proof.
  intros Hd Hrej. unfold handleSave. now rewrite Hd, Hrej.
Qed.

Lemma handleSave_resolved isTauri p draft u :
  localSettings p = Some draft ->
  saveSettings isTauri draft = Resolved u ->
  canonical (handleSave isTauri p) = Some draft
  /\ localSettings (handleSave isTauri p) = Some draft
  /\ saved (handleSave isTauri p) = true.
Proof.
  intros Hd Hok. unfold handleSave, canonical. rewrite Hd, Hok.
  destruct p as [[re tr se hi pr ct er av] ls sv sd rh ts cs].
  repeat split.
Qed.

(** C4: an edit followed by a save that the engine rejects leaves the
    canonical settings as they were and the draft as edited; the canonical
    settings become the draft when the save succeeds, and change in no
    other case. *)
Theorem failed_save_keeps_edit isTauri k v p draft err :
  localSettings p = Some draft ->
  saveSettings isTauri (spreadField k v draft) = Rejected err ->
  canonical (handleSave isTauri (updateField k v p)) = canonical p
  /\ store (handleSave isTauri (updateField k v p)) = store p
  /\ localSettings (handleSave isTauri (updateField k v p))
     = Some (spreadField k v draft)
  /\ getField k (spreadField k v draft) = v
  /\ (forall k', k' <> k ->
        getField k' (spreadField k v draft) = getField k' draft)
  /\ (forall engine,
        save_settings engine (spreadField k v draft) = Resolved tt ->
        canonical (handleSave (Some engine) (updateField k v p))
        = Some (spreadField k v draft))
  /\ (forall tauri,
        canonical (handleSave tauri (updateField k v p)) <> canonical p ->
        saveSettings tauri (spreadField k v draft) = Resolved tt).
Proof.
  intros Hd Hrej.
  pose proof (updateField_draft k v p draft Hd) as Hedit.
  rewrite (handleSave_rejected _ _ _ _ Hedit Hrej).
  split; [|split; [|split; [|split; [|split; [|split]]]]].
  - unfold canonical. rewrite <- (updateField_store k v p).
    now destruct (updateField k v p).
  - transitivity (store (updateField k v p));
      [now destruct (updateField k v p) | apply updateField_store].
  - rewrite <- Hedit. now destruct (updateField k v p).
  - apply getField_spreadField.
  - intros k'. apply getField_spreadField_ne.
  - intros engine Hok.
    now apply (handleSave_resolved (Some engine) _ _ tt Hedit).
  - intros tauri Hchanged.
    destruct (saveSettings tauri (spreadField k v draft)) as [[]|err'] eqn:Hres;
      [reflexivity|].
    exfalso. apply Hchanged.
    rewrite (handleSave_rejected _ _ _ _ Hedit Hres).
    unfold canonical. rewrite <- (updateField_store k v p).
    now destruct (updateField k v p).
Qed.

Lemma failed_save_keeps_edit_witness :
  localSettings Samples.panel = Some defaultSettings
  /\ saveSettings (Some Samples.readOnlyEngine)
       (spreadField K_hotkey "Alt+R" defaultSettings)
     = Rejected "settings file is read-only"
  /\ canonical (handleSave (Some Samples.readOnlyEngine)
                  (updateField K_hotkey "Alt+R" Samples.panel))
     = Some defaultSettings
  /\ localSettings (handleSave (Some Samples.readOnlyEngine)
                      (updateField K_hotkey "Alt+R" Samples.panel))
     = Some (spreadField K_hotkey "Alt+R" defaultSettings).
Proof.
  split; [reflexivity|]. split; [reflexivity|].
  destruct (failed_save_keeps_edit (Some Samples.readOnlyEngine) K_hotkey
              "Alt+R" Samples.panel defaultSettings
              "settings file is read-only" eq_refl eq_refl)
    as (Hcanon & _ & Hdraft & _).
  split; [exact Hcanon | exact Hdraft].
Defined.

(** The same holds in headless mode, where the save rejects at once. *)
Example headless_save_keeps_edit :
  let after := handleSave None
                 (updateField K_language "nl" Samples.panel) in
  canonical after = Some defaultSettings
  /\ (language <$> localSettings after) = Some "nl"
  /\ console after = [("Failed to save settings:", "Not running in Tauri")]
  /\ saved after = false.
Proof. repeat split. Qed.

(** A save the engine accepts: canonical and draft agree, the "saved"
    flag is up and its 2000 ms timeout is pending. *)
Example accepted_save_commits :
  let after := handleSave (Some Samples.engine)
                 (updateField K_language "nl" Samples.panel) in
  (language <$> canonical after) = Some "nl"
  /\ localSettings after = canonical after
  /\ saved after = true /\ saving after = false
  /\ timeouts after = [2000%N].
Proof. repeat split. Qed.

End Settings.

(** ** Provider configuration *)

Section ProviderConfigs.

Import Commands SettingsPanel.

Lemma provider_configs_spreadField c s :
  provider_configs (spreadField K_provider_configs c s) = c.
Proof. now destruct s. Qed.

Lemma orNull_empty : orNull "" = None.
Proof. reflexivity. Qed.

Lemma orNull_filled value : value <> "" -> orNull value = Some value.
Proof.
  intros Hne. unfold orNull.
  destruct (String.eqb_spec value ""); [contradiction | reflexivity].
Qed.

(** C8: [updateProviderConfig] writes the one field into the provider's
    entry, making the entry if there was none, with the empty string
    stored as null; the provider's other fields, the other providers and
    the other settings are as before. *)
Theorem updateProviderConfig_merges providerId field value p draft :
  localSettings p = Some draft ->
  exists draft',
    localSettings (updateProviderConfig providerId field value p)
    = Some draft'
    /\ is_Some (provider_configs draft' !! providerId)
    /\ readProviderField draft' providerId field = Some (orNull value)
    /\ (value = "" -> readProviderField draft' providerId field = Some None)
    /\ (value <> "" ->
        readProviderField draft' providerId field = Some (Some value))
    /\ (forall field', field' <> field ->
          readProviderField draft' providerId field'
          = readProviderField draft providerId field')
    /\ (forall providerId', providerId' <> providerId ->
          provider_configs draft' !! providerId'
          = provider_configs draft !! providerId')
    /\ (forall k, k <> K_provider_configs ->
          getField k draft' = getField k draft)
    /\ store (updateProviderConfig providerId field value p) = store p.
Proof.
  intros Hd. destruct p as [st ls sv sd rh ts cs]. simpl in Hd. subst ls.
  eexists. split; [reflexivity|].
  unfold readProviderField. rewrite provider_configs_spreadField.
  assert (Hread :
    spreadConfig
      (<[providerId := <[field := orNull value]>
           (spreadConfig (provider_configs draft !! providerId))]>
         (provider_configs draft) !! providerId) !! field
    = Some (orNull value)).
  { rewrite lookup_insert_eq. simpl. apply lookup_insert_eq. }
  split; [rewrite lookup_insert_eq; eauto|].
  split; [exact Hread|].
  split; [intros ->; exact Hread|].
  split; [intros Hne; rewrite Hread, orNull_filled; auto|].
  split.
  { intros field' Hne. rewrite lookup_insert_eq. simpl.
    now rewrite lookup_insert_ne. }
  split.
  { intros providerId' Hne. now rewrite lookup_insert_ne. }
  split; [|reflexivity].
  intros k Hne.
  now apply (getField_spreadField_ne K_provider_configs).
Qed.

Lemma updateProviderConfig_merges_witness :
  localSettings Samples.panel = Some defaultSettings
  /\ exists draft',
       localSettings
         (updateProviderConfig "OpenAiWhisper" "api_key" "" Samples.panel)
       = Some draft'
       /\ readProviderField draft' "OpenAiWhisper" "api_key" = Some None.
Proof.
  split; [reflexivity|].
  destruct (updateProviderConfig_merges "OpenAiWhisper" "api_key" ""
              Samples.panel defaultSettings eq_refl)
    as (draft' & Hdraft & _ & _ & Hnull & _).
  exists draft'. split; [exact Hdraft | exact (Hnull eq_refl)].
Defined.

(** A key typed and then erased reads back as null; the model chosen
    meanwhile is kept. *)
Example api_key_typed_then_erased :
  let typed := updateProviderConfig "OpenAiWhisper" "api_key" "sk-123"
                 Samples.panel in
  let chosen := updateProviderConfig "OpenAiWhisper" "model" "whisper-1"
                  typed in
  let erased := updateProviderConfig "OpenAiWhisper" "api_key" "" chosen in
  (localSettings typed ≫= fun s =>
     readProviderField s "OpenAiWhisper" "api_key") = Some (Some "sk-123")
  /\ (localSettings erased ≫= fun s =>
        readProviderField s "OpenAiWhisper" "api_key") = Some None
  /\ (localSettings erased ≫= fun s =>
        readProviderField s "OpenAiWhisper" "model")
     = Some (Some "whisper-1")
  /\ (localSettings erased ≫= fun s =>
        readProviderField s "GoogleCloud" "api_key") = None.
Proof. vm_compute. repeat split. Qed.

End ProviderConfigs.

(** ** Hotkey capture and display *)

Section Hotkeys.

Import Commands SettingsPanel HotkeyDisplay.

Variable toUpperCase : string -> string.

Lemma eqb_length_ne (k r : string) :
  String.length k <> String.length r -> String.eqb k r = false.
Proof.
  intros Hlen. apply String.eqb_neq. intros ->. now apply Hlen.
Qed.

(** A one-character key is none of the reserved key names. *)
Lemma single_character_not_reserved (k : string) :
  String.length k = 1 ->
  existsb (String.eqb k) reservedKeys = false.
Proof.
  intros Hlen. unfold reservedKeys. simpl.
  rewrite !eqb_length_ne by (rewrite Hlen; simpl; lia).
  reflexivity.
Qed.

Lemma handleHotkeyKeyDown_chord e p :
  existsb (String.eqb (key e)) reservedKeys = false ->
  handleHotkeyKeyDown toUpperCase e p
  = setIsRecordingHotkey false
      (updateField K_hotkey (Js.join "+" (hotkeyParts toUpperCase e)) p).
Proof.
  unfold reservedKeys, handleHotkeyKeyDown. simpl.
  intros Hres.
  repeat (apply orb_false_elim in Hres as [?H Hres]).
  now rewrite H, H0, H1, H2, H3, H4, H5, H6.
Qed.

Lemma draftHotkey_after_chord e p draft :
  localSettings p = Some draft ->
  existsb (String.eqb (key e)) reservedKeys = false ->
  draftHotkey (handleHotkeyKeyDown toUpperCase e p)
  = Some (Js.join "+" (hotkeyParts toUpperCase e)).
Proof.
  intros Hd Hres. rewrite handleHotkeyKeyDown_chord by exact Hres.
  destruct p as [st ls sv sd rh ts cs]. simpl in Hd. subst ls.
  unfold draftHotkey. simpl. now destruct draft.
Qed.

(** The chord lists the held modifiers in the fixed order and the terminal
    key last. *)
Lemma hotkeyParts_order e :
  hotkeyParts toUpperCase e
  = List.filter (held e) modifierOrder
    ++ [if String.eqb (key e) " " then "Space"
        else if (String.length (key e) =? 1)%nat then toUpperCase (key e)
        else key e].
Proof.
  unfold hotkeyParts, modifierOrder, held. simpl.
  destruct (ctrlKey e || metaKey e), (altKey e), (shiftKey e); reflexivity.
Qed.

Lemma formatKeyLabel_unrecognized isMac token :
  ~ In token recognizedTokens -> formatKeyLabel isMac token = token.
Proof.
  unfold recognizedTokens, formatKeyLabel. simpl. intros Hnot.
  repeat match goal with
         | |- context [String.eqb token ?t] =>
             destruct (String.eqb_spec token t);
             [exfalso; apply Hnot; subst token; intuition reflexivity|]
         end.
  reflexivity.
Qed.

(** C5: Ctrl+Shift+Space is stored as "CommandOrControl+Shift+Space";
    that string is shown as the glyphs for Command and Shift and the word
    Space on a Mac, and as Ctrl, Shift, Space elsewhere; a token without
    a label of its own is shown as it is; every chord lists the held
    modifiers in the order CommandOrControl, Alt, Shift and then the
    terminal key (the space bar as "Space", a one-character key in upper
    case, a named key as it is), joined by "+". *)
Theorem ctrl_shift_space_codec p draft meta isMac token e :
  localSettings p = Some draft ->
  ~ In token recognizedTokens ->
  existsb (String.eqb (key e)) reservedKeys = false ->
  draftHotkey
    (handleHotkeyKeyDown toUpperCase
       (mkKeyboardEvent " " true meta false true) p)
  = Some "CommandOrControl+Shift+Space"
  /\ HotkeyDisplay true "CommandOrControl+Shift+Space" = ["⌘"; "⇧"; "Space"]
  /\ HotkeyDisplay false "CommandOrControl+Shift+Space"
     = ["Ctrl"; "Shift"; "Space"]
  /\ formatKeyLabel isMac token = token
  /\ draftHotkey (handleHotkeyKeyDown toUpperCase e p)
     = Some (Js.join "+"
               (List.filter (held e) modifierOrder
                ++ [if String.eqb (key e) " " then "Space"
                    else if (String.length (key e) =? 1)%nat
                         then toUpperCase (key e)
                         else key e])).
Proof.
  intros Hd Htok Hres.
  split; [now rewrite (draftHotkey_after_chord _ _ draft)|].
  split; [reflexivity|]. split; [reflexivity|].
  split; [now apply formatKeyLabel_unrecognized|].
  rewrite (draftHotkey_after_chord _ _ draft) by assumption.
  now rewrite hotkeyParts_order.
Qed.

(** C10, amended: a one-character key other than the space bar, pressed
    with no modifier held, is stored as that character in upper case and
    nothing else. *)
Theorem bare_character_becomes_hotkey e p draft :
  localSettings p = Some draft ->
  String.length (key e) = 1 ->
  key e <> " " ->
  ctrlKey e = false -> metaKey e = false ->
  altKey e = false -> shiftKey e = false ->
  draftHotkey (handleHotkeyKeyDown toUpperCase e p)
  = Some (toUpperCase (key e))
  /\ hotkeyParts toUpperCase e = [toUpperCase (key e)]
  /\ localSettings (handleHotkeyKeyDown toUpperCase e p)
     = Some (spreadField K_hotkey (toUpperCase (key e)) draft)
  /\ isRecordingHotkey (handleHotkeyKeyDown toUpperCase e p) = false.
Proof.
  intros Hd Hlen Hsp Hc Hm Ha Hs.
  assert (Hparts : hotkeyParts toUpperCase e = [toUpperCase (key e)]).
  { unfold hotkeyParts. rewrite Hc, Hm, Ha, Hs, Hlen. simpl.
    destruct (String.eqb_spec (key e) " "); [contradiction | reflexivity]. }
  pose proof (single_character_not_reserved _ Hlen) as Hres.
  split; [now rewrite (draftHotkey_after_chord _ _ draft), Hparts|].
  split; [exact Hparts|].
  rewrite handleHotkeyKeyDown_chord, Hparts by exact Hres.
  destruct p as [st ls sv sd rh ts cs]. simpl in Hd. subst ls.
  split; reflexivity.
Qed.

End Hotkeys.

Lemma ctrl_shift_space_codec_witness :
  SettingsPanel.localSettings Samples.panel = Some Commands.defaultSettings
  /\ ~ In "F5" recognizedTokens
  /\ existsb (String.eqb (SettingsPanel.key Samples.ctrlShiftSpace))
       reservedKeys = false
  /\ draftHotkey
       (SettingsPanel.handleHotkeyKeyDown Js.asciiToUpperCase
          Samples.ctrlShiftSpace Samples.panel)
     = Some "CommandOrControl+Shift+Space"
  /\ HotkeyDisplay.formatKeyLabel true "F5" = "F5".
Proof.
  assert (Htok : ~ In "F5" recognizedTokens).
  { unfold recognizedTokens. simpl. intros H.
    repeat (destruct H as [H|H]; [discriminate H|]). exact H. }
  split; [reflexivity|]. split; [exact Htok|]. split; [reflexivity|].
  destruct (ctrl_shift_space_codec Js.asciiToUpperCase Samples.panel
              Commands.defaultSettings false true "F5"
              Samples.ctrlShiftSpace eq_refl Htok eq_refl)
    as (Henc & _ & _ & Hlabel & _).
  split; [exact Henc | exact Hlabel].
Defined.

Lemma bare_character_becomes_hotkey_witness :
  SettingsPanel.localSettings Samples.panel = Some Commands.defaultSettings
  /\ String.length (SettingsPanel.key Samples.plainA) = 1
  /\ SettingsPanel.key Samples.plainA <> " "
  /\ draftHotkey
       (SettingsPanel.handleHotkeyKeyDown Js.asciiToUpperCase
          Samples.plainA Samples.panel)
     = Some "A".
Proof.
  assert (Hsp : SettingsPanel.key Samples.plainA <> " ") by discriminate.
  split; [reflexivity|]. split; [reflexivity|]. split; [exact Hsp|].
  destruct (bare_character_becomes_hotkey Js.asciiToUpperCase Samples.plainA
              Samples.panel Commands.defaultSettings
              eq_refl eq_refl Hsp eq_refl eq_refl eq_refl eq_refl)
    as (Hkey & _).
  exact Hkey.
Defined.

(** C10, as stated, fails: the space bar is a one-character key and none of
    the keys set apart, and pressed with no modifier held it is stored as
    "Space", not as the space character. *)
Lemma bare_space_stored_as_name :
  String.length (SettingsPanel.key Samples.plainSpace) = 1
  /\ existsb (String.eqb (SettingsPanel.key Samples.plainSpace))
       reservedKeys = false
  /\ SettingsPanel.ctrlKey Samples.plainSpace = false
  /\ SettingsPanel.metaKey Samples.plainSpace = false
  /\ SettingsPanel.altKey Samples.plainSpace = false
  /\ SettingsPanel.shiftKey Samples.plainSpace = false
  /\ draftHotkey
       (SettingsPanel.handleHotkeyKeyDown Js.asciiToUpperCase
          Samples.plainSpace Samples.panel)
     = Some "Space"
  /\ draftHotkey
       (SettingsPanel.handleHotkeyKeyDown Js.asciiToUpperCase
          Samples.plainSpace Samples.panel)
     <> Some (Js.asciiToUpperCase (SettingsPanel.key Samples.plainSpace)).
Proof. repeat split. discriminate. Qed.

(** The space bar alone is stored under its name, and the keys that end or
    reset the capture do not build a chord. *)
Example capture_special_keys :
  draftHotkey (SettingsPanel.handleHotkeyKeyDown Js.asciiToUpperCase
                 Samples.plainSpace Samples.panel) = Some "Space"
  /\ SettingsPanel.handleHotkeyKeyDown Js.asciiToUpperCase
       (SettingsPanel.mkKeyboardEvent "Escape" false false false false)
       (SettingsPanel.updateField K_hotkey "Alt+R" Samples.panel)
     = SettingsPanel.setIsRecordingHotkey false
         (SettingsPanel.updateField K_hotkey "Alt+R" Samples.panel)
  /\ draftHotkey (SettingsPanel.handleHotkeyKeyDown Js.asciiToUpperCase
       (SettingsPanel.mkKeyboardEvent "Backspace" false false false false)
       (SettingsPanel.updateField K_hotkey "Alt+R" Samples.panel))
     = Some Commands.DEFAULT_HOTKEY
  /\ SettingsPanel.handleHotkeyKeyDown Js.asciiToUpperCase
       (SettingsPanel.mkKeyboardEvent "Shift" false false false true)
       Samples.panel
     = Samples.panel
  /\ draftHotkey (SettingsPanel.handleHotkeyKeyDown Js.asciiToUpperCase
       (SettingsPanel.mkKeyboardEvent "F5" false true true false)
       Samples.panel)
     = Some "CommandOrControl+Alt+F5".
Proof. repeat split. Qed.

(** ** Download progress *)

Section Downloads.

Import Commands ConstmeWhisperSettings.

Example formatBytes_samples :
  formatBytes 0 = "0 B" /\ formatBytes 1023 = "1023 B"
  /\ formatBytes 1024 = "1.0 KB" /\ formatBytes 1536 = "1.5 KB"
  /\ formatBytes 1048575 = "1024.0 KB"
  /\ formatBytes (3 * 1024 * 1024) = "3.0 MB"
  /\ formatBytes 1610612736 = "1.50 GB".
Proof. vm_compute. repeat split. Qed.

Lemma downloadProgress_loadStatus isTauri c :
  downloadProgress (loadStatus isTauri c) = downloadProgress c.
Proof.
  unfold loadStatus.
  destruct (getConstmeWhisperStatus isTauri); now destruct c.
Qed.

Lemma downloadProgress_set line c :
  downloadProgress (setDownloadProgress line c) = line.
Proof. now destruct c. Qed.

(** C2, as stated, fails: the component has one progress line, so the
    event that ends the DLL download wipes the line the model download
    was showing, and a progress event for the DLL replaces it. *)
Lemma done_wipes_other_items_line :
  let shown :=
    onDownloadProgress (Some Samples.engine) Samples.modelProgress
      initialCells in
  item Samples.dllDone <> item Samples.modelProgress
  /\ downloadProgress shown = "ggml-medium.bin: 1.5 KB / 3.0 MB"
  /\ downloadProgress
       (onDownloadProgress (Some Samples.engine) Samples.dllDone shown)
     = ""
  /\ downloadProgress
       (onDownloadProgress (Some Samples.engine) Samples.dllDone shown)
     <> downloadProgress shown
  /\ downloadProgress
       (onDownloadProgress (Some Samples.engine) Samples.dllProgress shown)
     = "Whisper.dll: 512 B / ?".
Proof.
  vm_compute. repeat split; discriminate.
Qed.

(** C2, amended: the tracker keeps a single progress line for all items.
    An event with done=false sets the line to that item's
    "item: downloaded / total" text, the total shown as "?" when
    [total_bytes] is null; an event with done=true empties the line and
    reloads the asset status; the line after an event depends on that
    event alone, and the [downloading] and [error] cells are untouched. *)
Theorem progress_line_is_shared isTauri payload c c' :
  downloadProgress (onDownloadProgress isTauri payload c)
  = (if done payload then ""
     else (item payload ++ ": " ++ formatBytes (downloaded_bytes payload)
           ++ " / " ++ totalLabel (total_bytes payload))%string)
  /\ totalLabel None = "?"
  /\ downloadProgress (onDownloadProgress isTauri payload c')
     = downloadProgress (onDownloadProgress isTauri payload c)
  /\ downloading (onDownloadProgress isTauri payload c) = downloading c
  /\ error (onDownloadProgress isTauri payload c) = error c
  /\ status (onDownloadProgress isTauri payload c)
     = (if done payload
        then match getConstmeWhisperStatus isTauri with
             | Resolved s => Some s
             | Rejected _ => status c
             end
        else status c).
Proof.
  assert (Hline : forall c0,
    downloadProgress (onDownloadProgress isTauri payload c0)
    = (if done payload then ""
       else (item payload ++ ": " ++ formatBytes (downloaded_bytes payload)
             ++ " / " ++ totalLabel (total_bytes payload))%string)).
  { intros c0. unfold onDownloadProgress. destruct (done payload).
    - now rewrite downloadProgress_loadStatus, downloadProgress_set.
    - apply downloadProgress_set. }
  split; [apply Hline|]. split; [reflexivity|].
  split; [now rewrite !Hline|].
  unfold onDownloadProgress, loadStatus.
  destruct (done payload), (getConstmeWhisperStatus isTauri), c;
    repeat split.
Qed.

End Downloads.

(** * Further properties of the code *)

Import Observations.

(** ** Event runs *)

Section EventRuns.

Import App Events.

Implicit Types (st : AppState) (ds : list (Ambient * EngineEvent)).

Lemma run_cons st d ds : run st (d :: ds) = run (deliver st d) ds.
Proof. reflexivity. Qed.

Lemma run_app st ds ds' : run st (ds ++ ds') = run (run st ds) ds'.
Proof. apply fold_left_app. Qed.

Lemma history_deliver st d :
  history (deliver st d)
  = match snd d with
    | transcription_complete result =>
        take 100 (entryOf (fst d) result :: history st)
    | _ => history st
    end.
Proof. destruct st, d as [env []]; reflexivity. Qed.

Lemma history_run_cases ds : forall st,
  history (run st ds)
  = match entriesOf ds with
    | [] => history st
    | _ :: _ => take 100 (reverse (entriesOf ds) ++ history st)
    end.
Proof.
  induction ds as [|d ds IH]; intros st; [reflexivity|].
  rewrite run_cons, IH, history_deliver.
  destruct d as [env ev].
  destruct ev as [| | |result|msg]; try reflexivity.
  change (entriesOf ((env, transcription_complete result) :: ds))
    with (entryOf env result :: entriesOf ds).
  cbn [fst snd].
  destruct (entriesOf ds) as [|e es]; [reflexivity|].
  rewrite take_app_take.
  rewrite (reverse_cons (e :: es) (entryOf env result)), <- app_assoc.
  reflexivity.
Qed.

(** X1: started from a history within the cap, the history after any
    sequence of events is the entries made by its transcription-complete
    events, newest first, followed by the old history, cut at 100. *)
Theorem history_after_events st ds :
  length (history st) <= 100 ->
  history (run st ds) = take 100 (reverse (entriesOf ds) ++ history st).
Proof.
  intros Hlen. rewrite history_run_cases.
  destruct (entriesOf ds); [|reflexivity].
  simpl. symmetry. now apply take_ge.
Qed.

Lemma history_after_events_witness :
  length (history initial) <= 100
  /\ history (run initial Samples.session)
     = [entryOf Samples.env Samples.result].
Proof.
  split; [simpl; lia|].
  rewrite (history_after_events initial Samples.session) by (simpl; lia).
  reflexivity.
Defined.

(** X2: a history loaded longer than the cap stays as it is until the
    first transcription completes, and holds at most 100 entries from then
    on. *)
Theorem overlong_history_cut_by_first_completion st ds :
  (entriesOf ds = [] -> history (run st ds) = history st)
  /\ (entriesOf ds <> [] -> length (history (run st ds)) <= 100).
Proof.
  rewrite history_run_cases. split.
  - now intros ->.
  - destruct (entriesOf ds); [congruence|].
    intros _. rewrite length_take. lia.
Qed.

Lemma overlong_history_cut_by_first_completion_witness :
  entriesOf [(Samples.env, recording_started)] = []
  /\ length (history (run MoreSamples.loaded
                        [(Samples.env, recording_started)])) = 150
  /\ entriesOf Samples.session <> []
  /\ length (history (run MoreSamples.loaded Samples.session)) <= 100.
Proof.
  destruct (overlong_history_cut_by_first_completion MoreSamples.loaded
              [(Samples.env, recording_started)]) as [Hkeep _].
  destruct (overlong_history_cut_by_first_completion MoreSamples.loaded
              Samples.session) as [_ Hcut].
  assert (Hne : entriesOf Samples.session <> []) by discriminate.
  split; [reflexivity|]. split; [now rewrite Hkeep|].
  split; [exact Hne | exact (Hcut Hne)].
Defined.

(** X3: no sequence of engine events changes the settings, the provider
    list or the active view. *)
Theorem events_leave_settings_and_view ds : forall st,
  settings (run st ds) = settings st
  /\ providers (run st ds) = providers st
  /\ activeView (run st ds) = activeView st.
Proof.
  induction ds as [|d ds IH]; intros st; [repeat split|].
  rewrite run_cons.
  destruct (IH (deliver st d)) as (-> & -> & ->).
  destruct st, d as [env []]; repeat split.
Qed.

Lemma newest_text_deliver st d :
  currentTranscription st = default "" (text <$> head (history st)) ->
  currentTranscription (deliver st d)
  = default "" (text <$> head (history (deliver st d))).
Proof.
  destruct st, d as [env []]; simpl; auto.
Qed.

(** X4: from the initial state, after any sequence of events the "last
    transcription" is the text of the newest history entry, and is empty
    while the history holds none. *)
Theorem last_transcription_is_newest_entry ds :
  currentTranscription (run initial ds)
  = default "" (text <$> head (history (run initial ds))).
Proof.
  assert (Hgen : forall st,
    currentTranscription st = default "" (text <$> head (history st)) ->
    currentTranscription (run st ds)
    = default "" (text <$> head (history (run st ds)))).
  { induction ds as [|d ds IH]; intros st Hst; [exact Hst|].
    rewrite run_cons. apply IH. now apply newest_text_deliver. }
  now apply Hgen.
Qed.

(** X5: an [error] event puts the flags back to idle and fills the error
    slot whatever happened before, also after both flags were raised; from
    there an ordered sequence keeps the flags exclusive again. *)
Theorem error_event_restores_idle st ds env msg ds' :
  engineOrdered (run st (ds ++ [(env, error_event msg)])) ds' = true ->
  flags (run st (ds ++ [(env, error_event msg)])) = (false, false)
  /\ error (run st (ds ++ [(env, error_event msg)])) = Some msg
  /\ flagsAllowed (run st (ds ++ (env, error_event msg) :: ds')).
Proof.
  intros Hord.
  assert (Hflags :
    flags (run st (ds ++ [(env, error_event msg)])) = (false, false)).
  { rewrite run_app. now destruct (run st ds). }
  split; [exact Hflags|].
  split; [rewrite run_app; now destruct (run st ds)|].
  change ((env, error_event msg) :: ds')
    with ([(env, error_event msg)] ++ ds').
  rewrite app_assoc, run_app.
  apply run_keeps_flags; [now left | exact Hord].
Qed.

Lemma error_event_restores_idle_witness :
  engineOrdered
    (run initial (Samples.overlap ++ [(Samples.env, error_event "lost")]))
    Samples.session = true
  /\ flags (run initial Samples.overlap) = (true, true)
  /\ flagsAllowed
       (run initial
          (Samples.overlap
           ++ (Samples.env, error_event "lost") :: Samples.session)).
Proof.
  split; [reflexivity|]. split; [reflexivity|].
  destruct (error_event_restores_idle initial Samples.overlap Samples.env
              "lost" Samples.session eq_refl) as (_ & _ & Hok).
  exact Hok.
Defined.

End EventRuns.

(** ** Commands issued from the views *)

Section ViewCommands.

Import Commands.

(** X6: a click on the microphone never changes the store, whatever the
    engine answers; outside transcription it calls exactly one command,
    the stop command when recording and the start command otherwise; when
    the engine accepts nothing else happens, and when it rejects the
    rejection is written to the console and goes no further. *)
Theorem mic_click_only_dispatches isTauri st :
  fst (App.handleMicClick isTauri st) = st
  /\ (isTranscribing st = false -> isRecording st = true ->
      snd (App.handleMicClick isTauri st)
      = App.Dispatch "stop_recording_and_transcribe"
        :: toggleOutcome (stopRecordingAndTranscribe isTauri))
  /\ (isTranscribing st = false -> isRecording st = false ->
      snd (App.handleMicClick isTauri st)
      = App.Dispatch "start_recording"
        :: toggleOutcome (startRecording isTauri)).
Proof.
  unfold App.handleMicClick. split; [|split].
  - destruct (isTranscribing st), (isRecording st);
      [reflexivity | reflexivity | |].
    + now destruct (stopRecordingAndTranscribe isTauri).
    + now destruct (startRecording isTauri).
  - intros -> ->. now destruct (stopRecordingAndTranscribe isTauri).
  - intros -> ->. now destruct (startRecording isTauri).
Qed.

Lemma mic_click_only_dispatches_witness :
  isTranscribing initial = false
  /\ isRecording initial = false
  /\ fst (App.handleMicClick None initial) = initial
  /\ snd (App.handleMicClick None initial)
     = [App.Dispatch "start_recording";
        App.ConsoleError "Recording toggle failed:" "Not running in Tauri"]
  /\ snd (App.handleMicClick (Some Samples.engine) initial)
     = [App.Dispatch "start_recording"].
Proof.
  split; [reflexivity|]. split; [reflexivity|].
  destruct (mic_click_only_dispatches None initial) as (Hst & _ & Hstart).
  destruct (mic_click_only_dispatches (Some Samples.engine) initial)
    as (_ & _ & Hok).
  split; [exact Hst|].
  split; [exact (Hstart eq_refl eq_refl) | exact (Hok eq_refl eq_refl)].
Defined.

(** X7: "Clear All" empties the local history only after the engine has
    cleared its own; when the engine refuses, or none is attached, the
    list is kept as it was and the rejection leaves the handler uncaught. *)
Theorem clear_all_follows_engine isTauri st :
  Js.raises (snd (HistoryList.handleClear isTauri st))
  = Js.raises (clearHistory isTauri)
  /\ history (fst (HistoryList.handleClear isTauri st))
     = (if Js.raises (clearHistory isTauri) then history st else [])
  /\ sameButHistory (fst (HistoryList.handleClear isTauri st)) st
  /\ fst (HistoryList.handleClear None st) = st
  /\ snd (HistoryList.handleClear None st) = Rejected "Not running in Tauri".
Proof.
  unfold HistoryList.handleClear.
  destruct (clearHistory isTauri); destruct st; repeat split.
Qed.

(** X8: mounting the app always leaves settings in the store: the
    engine's answer when it answers, the built-in defaults when it rejects
    or is absent.  History and providers are loaded the same way, each
    with its own fallback (the empty list, the built-in providers), so one
    rejected load does not stop the others; nothing else in the store is
    written. *)
Theorem mount_always_has_settings isTauri st :
  settings (AppView.mount isTauri st)
  = Some match isTauri with
         | Some engine =>
             match get_settings engine with
             | Resolved s => s
             | Rejected _ => defaultSettings
             end
         | None => defaultSettings
         end
  /\ history (AppView.mount isTauri st)
     = match isTauri with
       | Some engine =>
           match get_history engine with
           | Resolved entries => entries
           | Rejected _ => []
           end
       | None => []
       end
  /\ providers (AppView.mount isTauri st)
     = match isTauri with
       | Some engine =>
           match get_providers engine with
           | Resolved ps => ps
           | Rejected _ => defaultProviders
           end
       | None => defaultProviders
       end
  /\ flags (AppView.mount isTauri st) = flags st
  /\ currentTranscription (AppView.mount isTauri st) = currentTranscription st
  /\ error (AppView.mount isTauri st) = error st
  /\ activeView (AppView.mount isTauri st) = activeView st.
Proof.
  unfold AppView.mount, getSettings, getHistory, getProviders, tauriInvoke.
  destruct st as [re tr se hi pr ct er av].
  destruct isTauri as [engine|]; simpl; [|repeat split].
  destruct (get_settings engine), (get_history engine),
    (get_providers engine); simpl; repeat split.
Qed.

Lemma mount_always_has_settings_witness :
  settings (AppView.mount (Some MoreSamples.dutchEngine) initial)
  = Some MoreSamples.dutchSettings
  /\ history (AppView.mount (Some MoreSamples.dutchEngine) initial) = []
  /\ settings (AppView.mount (Some MoreSamples.stuckEngine) initial)
     = Some defaultSettings
  /\ history (AppView.mount (Some MoreSamples.stuckEngine) initial)
     = Samples.entries 0 3
  /\ providers (AppView.mount (Some MoreSamples.stuckEngine) initial)
     = defaultProviders.
Proof.
  destruct (mount_always_has_settings (Some MoreSamples.dutchEngine) initial)
    as (Hset & Hhist & _).
  destruct (mount_always_has_settings (Some MoreSamples.stuckEngine) initial)
    as (Hset' & Hhist' & Hprov' & _).
  split; [exact Hset|]. split; [exact Hhist|].
  split; [exact Hset'|]. split; [exact Hhist' | exact Hprov'].
Defined.

(** X9: the home view shows the hotkey exactly when the recording
    indicator is hidden, and the hotkey it shows is never empty: without
    settings, or with an empty hotkey in them, it is the default one. *)
Theorem home_hotkey_shown_when_idle st :
  (AppView.RecordingIndicator st = None
   <-> is_Some (AppView.hotkeyShown (AppView.homeView st)))
  /\ AppView.displayedHotkey st <> ""
  /\ (settings st = None -> AppView.displayedHotkey st = DEFAULT_HOTKEY)
  /\ (hotkey <$> settings st = Some "" ->
      AppView.displayedHotkey st = DEFAULT_HOTKEY).
Proof.
  unfold AppView.RecordingIndicator, AppView.homeView,
    AppView.displayedHotkey. simpl.
  split; [|split; [|split]].
  - destruct (isRecording st), (isTranscribing st); simpl; split;
      intros H; try discriminate H; try (now destruct H); eauto.
  - destruct (settings st) as [s|]; [|discriminate].
    destruct (String.eqb_spec (hotkey s) ""); [discriminate | assumption].
  - now intros ->.
  - destruct (settings st) as [s|]; [|discriminate].
    simpl. intros [= ->]. reflexivity.
Qed.

Lemma home_hotkey_shown_when_idle_witness :
  settings initial = None
  /\ AppView.displayedHotkey initial = "CommandOrControl+Shift+Space"
  /\ hotkey <$> settings
       (Store.setSettings (spreadField K_hotkey "" defaultSettings) initial)
     = Some ""
  /\ AppView.displayedHotkey
       (Store.setSettings (spreadField K_hotkey "" defaultSettings) initial)
     = "CommandOrControl+Shift+Space".
Proof.
  destruct (home_hotkey_shown_when_idle initial) as (_ & _ & Hnone & _).
  destruct (home_hotkey_shown_when_idle
              (Store.setSettings (spreadField K_hotkey "" defaultSettings)
                 initial)) as (_ & _ & _ & Hempty).
  split; [reflexivity|]. split; [exact (Hnone eq_refl)|].
  split; [reflexivity | exact (Hempty eq_refl)].
Defined.

(** X10: when both flags are up, the home view says "Recording... click
    to stop" over a disabled button, the indicator shows both labels, and
    the click handler ignores the click. *)
Theorem overlap_invites_ignored_click isTauri st :
  flags st = (true, true) ->
  AppView.statusLine (AppView.homeView st) = "Recording... click to stop"
  /\ AppView.micDisabled (AppView.homeView st) = true
  /\ AppView.RecordingIndicator st
     = Some ["Recording..."; "Transcribing..."]
  /\ App.handleMicClick isTauri st = (st, []).
Proof.
  unfold flags, AppView.RecordingIndicator, App.handleMicClick. simpl.
  intros [= -> ->]. repeat split.
Qed.

Lemma overlap_invites_ignored_click_witness :
  flags (App.run initial Samples.overlap) = (true, true)
  /\ AppView.statusLine (AppView.homeView (App.run initial Samples.overlap))
     = "Recording... click to stop"
  /\ App.handleMicClick (Some Samples.engine)
       (App.run initial Samples.overlap)
     = (App.run initial Samples.overlap, []).
Proof.
  split; [reflexivity|].
  destruct (overlap_invites_ignored_click (Some Samples.engine)
              (App.run initial Samples.overlap) eq_refl)
    as (Hline & _ & _ & Hclick).
  split; [exact Hline | exact Hclick].
Defined.

End ViewCommands.

(** ** Editing and saving the draft *)

Section DraftEdits.

Import Commands SettingsPanel.

Lemma localSettings_setSaving b p :
  localSettings (setSaving b p) = localSettings p.
Proof. now destruct p. Qed.

(** [handleSave] is the click followed at once by the settlement. *)
Lemma handleSave_click_then_settle isTauri p draft :
  localSettings p = Some draft ->
  PendingSave.handleSaveClick p = (Some draft, setSaving true p)
  /\ handleSave isTauri p
     = PendingSave.handleSaveSettle draft (saveSettings isTauri draft)
         (setSaving true p).
Proof.
  intros Hd. unfold PendingSave.handleSaveClick, handleSave.
  rewrite Hd. split; reflexivity.
Qed.

(** X11: an edit made while a save is pending is lost when the engine
    accepts the save and kept when it rejects it.  On acceptance the
    canonical settings and the draft both become the draft held since the
    click, whatever the draft has become meanwhile, "saved" is raised and
    one 2000 ms timeout is scheduled; on rejection draft and store stay
    as they are at that moment, one console line is written and "saved"
    is left alone.  Either way "saving" is down again. *)
Theorem pending_save_overwrites_later_edits captured p k v e u :
  let edited := updateField k v p in
  (canonical (PendingSave.handleSaveSettle captured (Resolved u) edited)
   = Some captured
   /\ localSettings (PendingSave.handleSaveSettle captured (Resolved u) edited)
      = Some captured
   /\ saved (PendingSave.handleSaveSettle captured (Resolved u) edited) = true
   /\ timeouts (PendingSave.handleSaveSettle captured (Resolved u) edited)
      = timeouts p ++ [2000%N]
   /\ console (PendingSave.handleSaveSettle captured (Resolved u) edited)
      = console p)
  /\ (localSettings (PendingSave.handleSaveSettle captured (Rejected e) edited)
      = localSettings edited
      /\ store (PendingSave.handleSaveSettle captured (Rejected e) edited)
         = store p
      /\ saved (PendingSave.handleSaveSettle captured (Rejected e) edited)
         = saved p
      /\ timeouts (PendingSave.handleSaveSettle captured (Rejected e) edited)
         = timeouts p
      /\ console (PendingSave.handleSaveSettle captured (Rejected e) edited)
         = console p ++ [("Failed to save settings:", e)])
  /\ saving (PendingSave.handleSaveSettle captured (Resolved u) edited) = false
  /\ saving (PendingSave.handleSaveSettle captured (Rejected e) edited) = false.
Proof.
  destruct p as [[re tr se hi pr ct er av] [draft|] sv sd rh ts cs];
    repeat split.
Qed.

(** The language is changed to Dutch after the click on "Save": the
    accepted save puts the draft back to the saved settings. *)
Example edit_during_accepted_save_is_lost :
  let clicked := PendingSave.handleSaveClick Samples.panel in
  let edited := updateField K_language "nl" (snd clicked) in
  fst clicked = Some defaultSettings
  /\ language <$> localSettings edited = Some "nl"
  /\ language
       <$> localSettings
             (PendingSave.handleSaveSettle defaultSettings (Resolved tt)
                edited)
     = Some "auto"
  /\ language
       <$> localSettings
             (PendingSave.handleSaveSettle defaultSettings
                (Rejected "settings file is read-only") edited)
     = Some "nl".
Proof. repeat split. Qed.

Lemma spreadField_twice k v1 v2 s :
  spreadField k v2 (spreadField k v1 s) = spreadField k v2 s.
Proof. destruct s, k; reflexivity. Qed.

Lemma spreadField_swap k k' v v' s :
  k <> k' ->
  spreadField k v (spreadField k' v' s)
  = spreadField k' v' (spreadField k v s).
Proof. destruct s, k, k'; intros Hne; try reflexivity; congruence. Qed.

(** X12: edits of the draft compose as assignments do: a second edit of
    the same field replaces the first, and edits of different fields can
    be made in either order. *)
Theorem updateField_last_write_wins k k' v1 v2 v' p :
  updateField k v2 (updateField k v1 p) = updateField k v2 p
  /\ (k <> k' ->
      updateField k v2 (updateField k' v' p)
      = updateField k' v' (updateField k v2 p)).
Proof.
  destruct p as [st [draft|] sv sd rh ts cs]; simpl; split;
    try reflexivity.
  - now rewrite spreadField_twice.
  - intros Hne. now rewrite spreadField_swap.
Qed.

Lemma updateField_last_write_wins_witness :
  K_hotkey <> K_language
  /\ updateField K_hotkey "Alt+R" (updateField K_language "nl" Samples.panel)
     = updateField K_language "nl" (updateField K_hotkey "Alt+R" Samples.panel).
Proof.
  assert (Hne : K_hotkey <> K_language) by discriminate.
  split; [exact Hne|].
  destruct (updateField_last_write_wins K_hotkey K_language
              "Alt+Q" "Alt+R" "nl" Samples.panel) as [_ Hswap].
  exact (Hswap Hne).
Defined.

Lemma updateProviderConfig_draft providerId field value p draft :
  localSettings p = Some draft ->
  localSettings (updateProviderConfig providerId field value p)
  = Some (spreadField K_provider_configs
            (<[providerId := <[field := orNull value]>
                 (spreadConfig (provider_configs draft !! providerId))]>
               (provider_configs draft)) draft).
Proof. destruct p; simpl; intros ->; reflexivity. Qed.

Lemma updateProviderConfig_no_draft providerId field value p :
  localSettings p = None ->
  updateProviderConfig providerId field value p = p.
Proof. destruct p; simpl; intros ->; reflexivity. Qed.

Lemma panel_eq_draft p q :
  sameButDraft p q -> isRecordingHotkey p = isRecordingHotkey q ->
  localSettings p = localSettings q -> p = q.
Proof.
  destruct p, q. unfold sameButDraft. simpl.
  intros (-> & -> & -> & -> & ->) -> ->. reflexivity.
Qed.

Lemma updateProviderConfig_frame providerId field value p :
  sameButDraft (updateProviderConfig providerId field value p) p
  /\ isRecordingHotkey (updateProviderConfig providerId field value p)
     = isRecordingHotkey p.
Proof. destruct p; repeat split. Qed.

(** X13: provider edits compose as assignments do: writing the same field
    of the same provider twice keeps the second value only, and writes to
    different fields or different providers can be made in either
    order. *)
Theorem updateProviderConfig_last_write_wins a f v1 v2 b g w p :
  updateProviderConfig a f v2 (updateProviderConfig a f v1 p)
  = updateProviderConfig a f v2 p
  /\ ((a, f) <> (b, g) ->
      updateProviderConfig a f v2 (updateProviderConfig b g w p)
      = updateProviderConfig b g w (updateProviderConfig a f v2 p)).
Proof.
  destruct (localSettings p) as [draft|] eqn:Hd.
  2:{ rewrite !(updateProviderConfig_no_draft _ _ _ p Hd). auto. }
  split.
  - apply panel_eq_draft.
    + destruct p; repeat split.
    + now destruct p.
    + rewrite (updateProviderConfig_draft a f v2 _ _
                 (updateProviderConfig_draft a f v1 p draft Hd)).
      rewrite (updateProviderConfig_draft a f v2 p draft Hd).
      rewrite provider_configs_spreadField, spreadField_twice.
      rewrite lookup_insert_eq. simpl.
      now rewrite !insert_insert_eq.
  - intros Hne. apply panel_eq_draft.
    + destruct p; repeat split.
    + now destruct p.
    + rewrite (updateProviderConfig_draft a f v2 _ _
                 (updateProviderConfig_draft b g w p draft Hd)).
      rewrite (updateProviderConfig_draft b g w _ _
                 (updateProviderConfig_draft a f v2 p draft Hd)).
      rewrite !provider_configs_spreadField, !spreadField_twice.
      f_equal. f_equal.
      destruct (decide (a = b)) as [->|Hab].
      * assert (Hfg : f <> g) by congruence.
        rewrite !lookup_insert_eq. simpl.
        rewrite !insert_insert_eq. f_equal.
        now apply insert_insert_ne.
      * rewrite !lookup_insert_ne by congruence.
        exact (insert_insert_ne (provider_configs draft) a b _ _ Hab).
Qed.

Lemma updateProviderConfig_last_write_wins_witness :
  ("OpenAiWhisper", "api_key") <> ("GoogleCloud", "api_key")
  /\ updateProviderConfig "OpenAiWhisper" "api_key" "sk-2"
       (updateProviderConfig "GoogleCloud" "api_key" "g-1" Samples.panel)
     = updateProviderConfig "GoogleCloud" "api_key" "g-1"
         (updateProviderConfig "OpenAiWhisper" "api_key" "sk-2"
            Samples.panel).
Proof.
  assert (Hne : ("OpenAiWhisper", "api_key") <> ("GoogleCloud", "api_key"))
    by discriminate.
  split; [exact Hne|].
  destruct (updateProviderConfig_last_write_wins "OpenAiWhisper" "api_key"
              "sk-1" "sk-2" "GoogleCloud" "api_key" "g-1" Samples.panel)
    as [_ Hswap].
  exact (Hswap Hne).
Defined.

End DraftEdits.

Section ProviderKeys.

Import Commands SettingsPanel.

(** X14: a provider edit never removes anything: every provider entry and
    every field that could be read before can be read after; and for a
    provider without an entry even an empty value makes one, so the draft
    is no longer the one it was. *)
Theorem updateProviderConfig_never_removes providerId field value p draft :
  localSettings p = Some draft ->
  exists draft',
    localSettings (updateProviderConfig providerId field value p)
    = Some draft'
    /\ (forall providerId' field',
          is_Some (readProviderField draft providerId' field') ->
          is_Some (readProviderField draft' providerId' field'))
    /\ (forall providerId',
          is_Some (provider_configs draft !! providerId') ->
          is_Some (provider_configs draft' !! providerId'))
    /\ (provider_configs draft !! providerId = None ->
        provider_configs draft' !! providerId
        = Some {[field := orNull value]}
        /\ draft' <> draft).
Proof.
  intros Hd. eexists.
  split; [apply (updateProviderConfig_draft _ _ _ _ _ Hd)|].
  unfold readProviderField. rewrite provider_configs_spreadField.
  split; [|split].
  - intros providerId' field'.
    destruct (decide (providerId = providerId')) as [<-|Hp].
    + rewrite lookup_insert_eq. simpl.
      destruct (decide (field = field')) as [<-|Hf].
      * rewrite lookup_insert_eq. eauto.
      * now rewrite lookup_insert_ne.
    + now rewrite lookup_insert_ne.
  - intros providerId'.
    destruct (decide (providerId = providerId')) as [<-|Hp].
    + rewrite lookup_insert_eq. eauto.
    + now rewrite lookup_insert_ne.
  - intros Hnone. rewrite Hnone, lookup_insert_eq. simpl.
    split; [reflexivity|].
    intros Heq.
    apply (f_equal (fun s => provider_configs s !! providerId)) in Heq.
    rewrite provider_configs_spreadField, lookup_insert_eq, Hnone in Heq.
    discriminate Heq.
Qed.

Lemma updateProviderConfig_never_removes_witness :
  localSettings Samples.panel = Some defaultSettings
  /\ provider_configs defaultSettings !! "OpenAiWhisper" = None
  /\ localSettings
       (updateProviderConfig "OpenAiWhisper" "api_key" "" Samples.panel)
     <> Some defaultSettings.
Proof.
  split; [reflexivity|]. split; [reflexivity|].
  destruct (updateProviderConfig_never_removes "OpenAiWhisper" "api_key" ""
              Samples.panel defaultSettings eq_refl)
    as (draft' & Hdraft & _ & _ & Hnew).
  destruct (Hnew eq_refl) as [_ Hne].
  rewrite Hdraft. intros [= Heq]. exact (Hne Heq).
Defined.

End ProviderKeys.

(** ** Capturing a hotkey and showing it again *)

Section CaptureAndDisplay.

Import Commands SettingsPanel HotkeyDisplay.

Variable toUpperCase : string -> string.

Lemma split_nonempty sep s : Js.split sep s <> [].
Proof.
  destruct s as [|c s]; simpl; [discriminate|].
  destruct (Ascii.eqb c sep); [discriminate|].
  destruct (Js.split sep s); discriminate.
Qed.

Lemma split_app_sep sep a b :
  Js.split sep (a ++ String sep b)%string
  = Js.split sep a ++ Js.split sep b.
Proof.
  induction a as [|c a IH]; simpl.
  - now rewrite Ascii.eqb_refl.
  - destruct (Ascii.eqb c sep); [now rewrite IH|].
    rewrite IH.
    pose proof (split_nonempty sep a) as Hne.
    destruct (Js.split sep a); [contradiction | reflexivity].
Qed.

(** Splitting what was joined splits every part in turn. *)
Lemma split_join parts :
  parts <> [] ->
  Js.split "+" (Js.join "+" parts) = flat_map (Js.split "+") parts.
Proof.
  induction parts as [|p [|q rest] IH]; intros Hne.
  - contradiction.
  - simpl. now rewrite app_nil_r.
  - change (Js.join "+" (p :: q :: rest))
      with (p ++ String "+" (Js.join "+" (q :: rest)))%string.
    rewrite split_app_sep, IH by discriminate. reflexivity.
Qed.

Lemma split_plusFree s : plusFree s -> Js.split "+" s = [s].
Proof.
  unfold plusFree. induction s as [|c s IH]; simpl; [reflexivity|].
  destruct (Ascii.eqb c "+"); [discriminate|].
  simpl. intros Hs. now rewrite IH.
Qed.

Lemma length_split s : length (Js.split "+" s) = S (countChar "+" s).
Proof.
  induction s as [|c s IH]; simpl; [reflexivity|].
  destruct (Ascii.eqb c "+"); simpl; [now rewrite IH|].
  pose proof (split_nonempty "+" s) as Hne.
  destruct (Js.split "+" s); [contradiction|]. simpl in *. exact IH.
Qed.

Lemma flat_map_split_modifiers e :
  flat_map (Js.split "+") (List.filter (held e) modifierOrder)
  = List.filter (held e) modifierOrder.
Proof.
  unfold modifierOrder, held. simpl.
  destruct (ctrlKey e || metaKey e), (altKey e), (shiftKey e); reflexivity.
Qed.

Lemma terminalToken_eq e :
  terminalToken toUpperCase e
  = (if String.eqb (key e) " " then "Space"
     else if (String.length (key e) =? 1)%nat then toUpperCase (key e)
     else key e).
Proof.
  unfold terminalToken. rewrite hotkeyParts_order. apply last_last.
Qed.

Lemma hotkeyParts_terminal e :
  hotkeyParts toUpperCase e
  = List.filter (held e) modifierOrder ++ [terminalToken toUpperCase e].
Proof. now rewrite terminalToken_eq, hotkeyParts_order. Qed.

(** What the display makes of a captured chord. *)
Lemma display_of_capture isMac e p draft :
  localSettings p = Some draft ->
  existsb (String.eqb (key e)) reservedKeys = false ->
  HotkeyDisplay isMac
    <$> draftHotkey (handleHotkeyKeyDown toUpperCase e p)
  = Some (map (formatKeyLabel isMac) (List.filter (held e) modifierOrder)
          ++ map (formatKeyLabel isMac)
               (Js.split "+" (terminalToken toUpperCase e))).
Proof.
  intros Hd Hres.
  rewrite (draftHotkey_after_chord toUpperCase e p draft Hd Hres).
  simpl. unfold HotkeyDisplay. f_equal.
  rewrite split_join by (rewrite hotkeyParts_terminal;
                         now destruct (List.filter (held e) modifierOrder)).
  rewrite hotkeyParts_terminal, flat_map_app, flat_map_split_modifiers.
  simpl. now rewrite app_nil_r, map_app.
Qed.

(** X15: a captured chord whose terminal key name holds no "+" is shown
    again as one key cap per part: the labels of the modifiers held, in
    the order CommandOrControl, Alt, Shift, then the label of the terminal
    key. *)
Theorem captured_chord_displays_its_parts isMac e p draft :
  localSettings p = Some draft ->
  existsb (String.eqb (key e)) reservedKeys = false ->
  plusFree (terminalToken toUpperCase e) ->
  HotkeyDisplay isMac
    <$> draftHotkey (handleHotkeyKeyDown toUpperCase e p)
  = Some (map (formatKeyLabel isMac) (hotkeyParts toUpperCase e))
  /\ hotkeyParts toUpperCase e
     = List.filter (held e) modifierOrder ++ [terminalToken toUpperCase e].
Proof.
  intros Hd Hres Hfree.
  split; [|apply hotkeyParts_terminal].
  rewrite (display_of_capture isMac e p draft Hd Hres).
  now rewrite split_plusFree, hotkeyParts_terminal, map_app.
Qed.

(** X16: the plus key breaks that round trip: its chord is shown with two
    empty key caps where the key should be. *)
Theorem plus_key_displays_empty_caps isMac e p draft :
  localSettings p = Some draft ->
  key e = "+" ->
  toUpperCase "+" = "+" ->
  HotkeyDisplay isMac
    <$> draftHotkey (handleHotkeyKeyDown toUpperCase e p)
  = Some (map (formatKeyLabel isMac) (List.filter (held e) modifierOrder)
          ++ [""; ""]).
Proof.
  intros Hd Hkey Hup.
  rewrite (display_of_capture isMac e p draft Hd)
    by (rewrite Hkey; reflexivity).
  rewrite terminalToken_eq, Hkey. simpl. now rewrite Hup.
Qed.

(** X17: a key press in the hotkey field changes nothing but the capture
    flag and the hotkey of the draft: the store, the other fields of the
    draft and the save state are as before. *)
Theorem hotkey_capture_touches_hotkey_only e p k :
  k <> K_hotkey ->
  sameButDraft (handleHotkeyKeyDown toUpperCase e p) p
  /\ getField k <$> localSettings (handleHotkeyKeyDown toUpperCase e p)
     = getField k <$> localSettings p.
Proof.
  intros Hk. unfold handleHotkeyKeyDown.
  destruct p as [st [draft|] sv sd rh ts cs];
    repeat match goal with
           | |- context [if ?b then _ else _] => destruct b
           end;
    simpl; repeat split;
    f_equal; now apply (getField_spreadField_ne K_hotkey).
Qed.

(** X18: Backspace and Delete put the default hotkey into the draft
    whatever modifiers are held and whatever the hotkey was; Escape leaves
    the draft alone; all three end the capture.  A modifier key on its own
    changes nothing at all, so the capture goes on. *)
Theorem capture_reset_cancel_and_wait e p draft :
  localSettings p = Some draft ->
  (key e = "Backspace" \/ key e = "Delete" ->
   localSettings (handleHotkeyKeyDown toUpperCase e p)
   = Some (spreadField K_hotkey DEFAULT_HOTKEY draft)
   /\ isRecordingHotkey (handleHotkeyKeyDown toUpperCase e p) = false)
  /\ (key e = "Escape" ->
      localSettings (handleHotkeyKeyDown toUpperCase e p) = Some draft
      /\ isRecordingHotkey (handleHotkeyKeyDown toUpperCase e p) = false)
  /\ (In (key e) ["Control"; "Alt"; "Shift"; "Meta"; "Command"] ->
      handleHotkeyKeyDown toUpperCase e p = p).
Proof.
  intros Hd. destruct p as [st ls sv sd rh ts cs]. simpl in Hd. subst ls.
  unfold handleHotkeyKeyDown.
  split; [|split].
  - intros [-> | ->]; split; reflexivity.
  - intros ->. split; reflexivity.
  - simpl. intros [<- | [<- | [<- | [<- | [<- | []]]]]]; reflexivity.
Qed.

(** X19: the display shows one key cap more than the hotkey string has
    "+" signs, so never none: the empty hotkey is one empty cap. *)
Theorem display_has_one_cap_per_token isMac hotkey :
  length (HotkeyDisplay isMac hotkey) = S (countChar "+" hotkey)
  /\ HotkeyDisplay isMac "" = [""].
Proof.
  split; [|reflexivity].
  unfold HotkeyDisplay. now rewrite length_map, length_split.
Qed.

End CaptureAndDisplay.

Lemma captured_chord_displays_its_parts_witness :
  SettingsPanel.localSettings Samples.panel = Some Commands.defaultSettings
  /\ existsb (String.eqb (SettingsPanel.key MoreSamples.altShiftF5))
       reservedKeys = false
  /\ plusFree (terminalToken Js.asciiToUpperCase MoreSamples.altShiftF5)
  /\ HotkeyDisplay.HotkeyDisplay false
       <$> draftHotkey
             (SettingsPanel.handleHotkeyKeyDown Js.asciiToUpperCase
                MoreSamples.altShiftF5 Samples.panel)
     = Some ["Alt"; "Shift"; "F5"].
Proof.
  split; [reflexivity|]. split; [reflexivity|]. split; [reflexivity|].
  destruct (captured_chord_displays_its_parts Js.asciiToUpperCase false
              MoreSamples.altShiftF5 Samples.panel Commands.defaultSettings
              eq_refl eq_refl eq_refl) as [Hshow _].
  exact Hshow.
Defined.

Lemma plus_key_displays_empty_caps_witness :
  SettingsPanel.localSettings Samples.panel = Some Commands.defaultSettings
  /\ SettingsPanel.key MoreSamples.ctrlPlus = "+"
  /\ Js.asciiToUpperCase "+" = "+"
  /\ draftHotkey
       (SettingsPanel.handleHotkeyKeyDown Js.asciiToUpperCase
          MoreSamples.ctrlPlus Samples.panel)
     = Some "CommandOrControl++"
  /\ HotkeyDisplay.HotkeyDisplay false
       <$> draftHotkey
             (SettingsPanel.handleHotkeyKeyDown Js.asciiToUpperCase
                MoreSamples.ctrlPlus Samples.panel)
     = Some ["Ctrl"; ""; ""].
Proof.
  split; [reflexivity|]. split; [reflexivity|]. split; [reflexivity|].
  split; [reflexivity|].
  exact (plus_key_displays_empty_caps Js.asciiToUpperCase false
           MoreSamples.ctrlPlus Samples.panel Commands.defaultSettings
           eq_refl eq_refl eq_refl).
Defined.

Lemma hotkey_capture_touches_hotkey_only_witness :
  K_language <> K_hotkey
  /\ language
       <$> SettingsPanel.localSettings
             (SettingsPanel.handleHotkeyKeyDown Js.asciiToUpperCase
                MoreSamples.altShiftF5 Samples.panel)
     = Some "auto".
Proof.
  assert (Hne : K_language <> K_hotkey) by discriminate.
  split; [exact Hne|].
  destruct (hotkey_capture_touches_hotkey_only Js.asciiToUpperCase
              MoreSamples.altShiftF5 Samples.panel K_language Hne)
    as [_ Hlang].
  exact Hlang.
Defined.

Lemma capture_reset_cancel_and_wait_witness :
  SettingsPanel.localSettings
    (SettingsPanel.updateField K_hotkey "Alt+R" Samples.panel)
  = Some (spreadField K_hotkey "Alt+R" Commands.defaultSettings)
  /\ SettingsPanel.key MoreSamples.backspace = "Backspace"
  /\ draftHotkey
       (SettingsPanel.handleHotkeyKeyDown Js.asciiToUpperCase
          MoreSamples.backspace
          (SettingsPanel.updateField K_hotkey "Alt+R" Samples.panel))
     = Some Commands.DEFAULT_HOTKEY.
Proof.
  split; [reflexivity|]. split; [reflexivity|].
  destruct (capture_reset_cancel_and_wait Js.asciiToUpperCase
              MoreSamples.backspace
              (SettingsPanel.updateField K_hotkey "Alt+R" Samples.panel)
              (spreadField K_hotkey "Alt+R" Commands.defaultSettings)
              eq_refl) as [Hreset _].
  destruct (Hreset (or_introl eq_refl)) as [Hdraft _].
  unfold draftHotkey. rewrite Hdraft. reflexivity.
Defined.

(** ** Downloads *)

Section DownloadHandlers.

Import Commands SettingsPanel ConstmeWhisperSettings ConstmeHandlers.

Lemma string_length_app (a b : string) :
  String.length (a ++ b)%string = String.length a + String.length b.
Proof. induction a as [|c a IH]; simpl; [reflexivity | now rewrite IH]. Qed.

Lemma formatBytes_long bytes : 2 <= String.length (formatBytes bytes).
Proof.
  unfold formatBytes.
  repeat match goal with
         | |- context [if ?b then _ else _] => destruct b
         end;
    rewrite string_length_app; simpl; lia.
Qed.

(** X20: the total of a progress line is shown as "?" exactly when
    [total_bytes] is null or zero. *)
Theorem total_unknown_iff_null_or_zero (total : option N) :
  totalLabel total = "?" <-> total = None \/ total = Some 0%N.
Proof.
  unfold totalLabel. destruct total as [t|]; [|intuition].
  destruct (N.eqb_spec t 0) as [->|Hne]; [intuition|].
  split.
  - intros Heq. pose proof (formatBytes_long t) as Hlen.
    rewrite Heq in Hlen. simpl in Hlen. lia.
  - intros [H | [= H]]; [discriminate H | contradiction].
Qed.

Lemma total_unknown_iff_null_or_zero_witness :
  totalLabel (Some 0%N) = "?" /\ totalLabel (Some 2048%N) = "2.0 KB".
Proof.
  split; [|reflexivity].
  apply (total_unknown_iff_null_or_zero (Some 0%N)). now right.
Defined.

(** X21: sizes within 51 bytes below one mebibyte are still counted in
    kilobytes and round up to "1024.0 KB". *)
Theorem formatBytes_rounds_past_unit (bytes : N) :
  (1048525 <= bytes)%N /\ (bytes < 1048576)%N ->
  formatBytes bytes = "1024.0 KB".
Proof.
  intros [Hlo Hhi]. unfold formatBytes.
  destruct (N.ltb_spec bytes 1024); [lia|].
  destruct (N.ltb_spec bytes (1024 * 1024)); [|lia].
  unfold Js.toFixed.
  change (10 ^ N.of_nat 1)%N with 10%N.
  assert (Hn : ((2 * bytes * 10 + 1024) / (2 * 1024))%N = 10240%N).
  { symmetry. apply (N.div_unique _ _ _ (2 * bytes * 10 + 1024 - 10240 * 2048));
      lia. }
  rewrite Hn. reflexivity.
Qed.

Lemma formatBytes_rounds_past_unit_witness :
  ((1048525 <= 1048575)%N /\ (1048575 < 1048576)%N)
  /\ formatBytes 1048575 = "1024.0 KB"
  /\ formatBytes 1048576 = "1.0 MB".
Proof.
  assert (Hin : (1048525 <= 1048575)%N /\ (1048575 < 1048576)%N) by lia.
  split; [exact Hin|].
  split; [exact (formatBytes_rounds_past_unit 1048575 Hin) | reflexivity].
Defined.

Lemma progressRun_snoc isTauri c events payload :
  progressRun isTauri c (events ++ [payload])
  = onDownloadProgress isTauri payload (progressRun isTauri c events).
Proof. unfold progressRun. now rewrite fold_left_app. Qed.

Lemma onDownloadProgress_frame isTauri payload c :
  downloading (onDownloadProgress isTauri payload c) = downloading c
  /\ error (onDownloadProgress isTauri payload c) = error c.
Proof.
  unfold onDownloadProgress, loadStatus.
  destruct (done payload), (getConstmeWhisperStatus isTauri), c;
    split; reflexivity.
Qed.

(** X22: after any run of progress events the progress line is empty
    exactly when the last event said [done], whatever item each event was
    about; no progress event touches the [downloading] or [error] cell. *)
Theorem progress_line_follows_last_event isTauri c events payload :
  (downloadProgress (progressRun isTauri c (events ++ [payload])) = ""
   <-> done payload = true)
  /\ downloading (progressRun isTauri c events) = downloading c
  /\ error (progressRun isTauri c events) = error c.
Proof.
  split.
  - rewrite progressRun_snoc. unfold onDownloadProgress.
    destruct (done payload).
    + rewrite downloadProgress_loadStatus, downloadProgress_set.
      now split.
    + rewrite downloadProgress_set. split; [|discriminate].
      intros Heq. apply (f_equal String.length) in Heq.
      rewrite !string_length_app in Heq. simpl in Heq. lia.
  - revert c. induction events as [|ev events IH]; intros c; [now split|].
    change (progressRun isTauri c (ev :: events))
      with (progressRun isTauri (onDownloadProgress isTauri ev c) events).
    destruct (IH (onDownloadProgress isTauri ev c)) as [-> ->].
    apply onDownloadProgress_frame.
Qed.

Lemma progress_line_follows_last_event_witness :
  done Samples.dllDone = true
  /\ downloadProgress
       (progressRun (Some Samples.engine) initialCells
          ([Samples.dllProgress; Samples.modelProgress] ++ [Samples.dllDone]))
     = "".
Proof.
  split; [reflexivity|].
  destruct (progress_line_follows_last_event (Some Samples.engine)
              initialCells [Samples.dllProgress; Samples.modelProgress]
              Samples.dllDone) as [[_ Hdone] _].
  exact (Hdone eq_refl).
Defined.

Variable errorText : string -> string.

(** X23: both download handlers end with [downloading] back at null, so
    the download buttons are enabled again, accepted or not.  An accepted
    DLL download records its path in the draft, an accepted model download
    records path and file name together, and both clear the error; a
    rejected one leaves the panel as it was and shows the failure. *)
Theorem downloads_reenable_and_record isTauri file c p :
  downloadDisabled (fst (handleDownloadDll errorText isTauri (c, p))) = false
  /\ downloadDisabled
       (fst (handleDownloadModel errorText isTauri file (c, p))) = false
  /\ match downloadConstmeDll isTauri with
     | Resolved pth =>
         snd (handleDownloadDll errorText isTauri (c, p))
         = updateField K_constme_whisper_dll_path (Some pth) p
         /\ error (fst (handleDownloadDll errorText isTauri (c, p))) = None
     | Rejected e =>
         snd (handleDownloadDll errorText isTauri (c, p)) = p
         /\ error (fst (handleDownloadDll errorText isTauri (c, p)))
            = Some ("DLL download failed: " ++ errorText e)%string
     end
  /\ match downloadConstmeModel isTauri file with
     | Resolved pth =>
         constme_whisper_model_path
           <$> localSettings
                 (snd (handleDownloadModel errorText isTauri file (c, p)))
         = (fun _ => Some pth) <$> localSettings p
         /\ constme_whisper_model_name
              <$> localSettings
                    (snd (handleDownloadModel errorText isTauri file (c, p)))
            = (fun _ => Some file) <$> localSettings p
         /\ error (fst (handleDownloadModel errorText isTauri file (c, p)))
            = None
     | Rejected e =>
         snd (handleDownloadModel errorText isTauri file (c, p)) = p
         /\ error (fst (handleDownloadModel errorText isTauri file (c, p)))
            = Some ("Model download failed: " ++ errorText e)%string
     end.
Proof.
  unfold handleDownloadDll, handleDownloadModel, downloadDisabled, loadStatus.
  destruct c as [st dl dp er], p as [sto [draft|] sv sd rh ts cs];
    destruct (downloadConstmeDll isTauri), (downloadConstmeModel isTauri file),
      (getConstmeWhisperStatus isTauri);
    simpl; repeat split; now destruct draft.
Qed.

(** X24: choosing an available model records its path and file name
    together and nothing else; a model listed without a path, or with an
    empty one, cannot be chosen: the click changes nothing. *)
Theorem selectModel_needs_path model p draft :
  localSettings p = Some draft ->
  (path model = None \/ path model = Some "" -> selectModel model p = p)
  /\ (forall pth, path model = Some pth -> pth <> "" ->
        constme_whisper_model_path
          <$> localSettings (selectModel model p) = Some (Some pth)
        /\ constme_whisper_model_name
             <$> localSettings (selectModel model p)
           = Some (Some (filename model))
        /\ sameButDraft (selectModel model p) p
        /\ forall k, k <> K_constme_whisper_model_path ->
                     k <> K_constme_whisper_model_name ->
             getField k <$> localSettings (selectModel model p)
             = Some (getField k draft)).
Proof.
  intros Hd. destruct p as [sto ls sv sd rh ts cs]. simpl in Hd. subst ls.
  unfold selectModel. split.
  - now intros [-> | ->].
  - intros pth -> Hne.
    destruct (String.eqb_spec pth ""); [contradiction|].
    simpl. split; [now destruct draft|]. split; [now destruct draft|].
    split; [repeat split|].
    intros k Hk1 Hk2. f_equal.
    rewrite (getField_spreadField_ne K_constme_whisper_model_name) by exact Hk2.
    now apply (getField_spreadField_ne K_constme_whisper_model_path).
Qed.

End DownloadHandlers.

Lemma selectModel_needs_path_witness :
  SettingsPanel.localSettings Samples.panel = Some Commands.defaultSettings
  /\ path MoreSamples.pathlessModel = None
  /\ ConstmeHandlers.selectModel MoreSamples.pathlessModel Samples.panel
     = Samples.panel
  /\ constme_whisper_model_name
       <$> SettingsPanel.localSettings
             (ConstmeHandlers.selectModel MoreSamples.mediumModel
                Samples.panel)
     = Some (Some "ggml-medium.bin").
Proof.
  split; [reflexivity|]. split; [reflexivity|].
  destruct (selectModel_needs_path MoreSamples.pathlessModel Samples.panel
              Commands.defaultSettings eq_refl) as [Hnone _].
  destruct (selectModel_needs_path MoreSamples.mediumModel Samples.panel
              Commands.defaultSettings eq_refl) as [_ Hsome].
  split; [exact (Hnone (or_introl eq_refl))|].
  destruct (Hsome "C:/whisper/ggml-medium.bin" eq_refl) as (_ & Hname & _);
    [discriminate | exact Hname].
Defined.
